(** * DLLInjector: a shallow embedding of [injector/injector.py]

    The injector drives a target process through [windll.kernel32].  The
    embedding keeps the Python control flow (exceptions, [try]/[finally],
    the [log_exceptions] decorator with the logging call it makes) in a
    small state-and-exception monad and
    treats kernel32 as an interface: every foreign call is recorded, with
    the reply the operating system gave, in a trace.  Log records are kept
    too, since some methods differ only in what they log.  [launch_target],
    which starts a process with [subprocess] and touches neither kernel32
    nor the fields of the injector, comes after the other methods, with
    [subprocess] as an interface of its own; so do the callers in
    [injector/inject.py]. *)

From Stdlib Require Import ZArith List Lia Bool String Ascii.
From Stdlib.Strings Require Import Byte.
From stdpp Require Import base option list gmap.
Import ListNotations.

Local Open Scope Z_scope.
Set Warnings "-register-all".

(** ** C integers created by the source: [c_int], [c_long], [c_ulong]

    ctypes does no overflow checking: the value wraps.  The module only runs
    on Windows ([windll]), where [long] is 32 bits wide like [int]. *)

Definition c_int (x : Z) : Z := (x + 2 ^ 31) mod 2 ^ 32 - 2 ^ 31.
Definition c_long (x : Z) : Z := c_int x.
Definition c_ulong (x : Z) : Z := x mod 2 ^ 32.

(** ** Python [str] and [bytes] *)

(** A [str] is a sequence of Unicode code points. *)
Definition str := list N.
Definition bytes := list byte.

Definition len {A} (l : list A) : Z := Z.of_nat (length l).

Definition is_ascii (cp : N) : bool := (cp <? 128)%N.

(** [str_of s] reads a literal of the source as a [str]. *)
Fixpoint str_of (s : string) : str :=
  match s with
  | EmptyString => []
  | String a rest => N_of_ascii a :: str_of rest
  end.

(** The first maximal run of characters outside ASCII, as the half-open
    range of positions that [UnicodeEncodeError] reports. *)
Fixpoint bad_run_end (s : str) (i : Z) : Z :=
  match s with
  | cp :: rest => if is_ascii cp then i else bad_run_end rest (i + 1)
  | [] => i
  end.

Fixpoint first_bad_run (s : str) (i : Z) : option (Z * Z) :=
  match s with
  | [] => None
  | cp :: rest =>
      if is_ascii cp then first_bad_run rest (i + 1)
      else Some (i, bad_run_end rest (i + 1))
  end.

(** [s.encode("ascii")] with the default strict error handler: [None] stands
    for the [UnicodeEncodeError]. *)
Fixpoint encode_ascii (s : str) : option bytes :=
  match s with
  | [] => Some []
  | cp :: rest =>
      if is_ascii cp then
        match Byte.of_N cp, encode_ascii rest with
        | Some b, Some bs => Some (b :: bs)
        | _, _ => None
        end
      else None
  end.

(** [b.decode("ascii", errors="replace")]: a byte outside ASCII becomes
    U+FFFD. *)
Definition decode_ascii_replace (b : bytes) : str :=
  map (fun x => let n := Byte.to_N x in if is_ascii n then n else 0xFFFD%N) b.

(** ** Exceptions and log records *)

Inductive ExnKind :=
| DLLInjectionError
| ProcessAccessError
| MemoryAllocationError
| FileNotFoundError
| UnicodeEncodeError
| ValueError
| KeyError.

Definition kind_name (k : ExnKind) : string :=
  match k with
  | DLLInjectionError => "DLLInjectionError"
  | ProcessAccessError => "ProcessAccessError"
  | MemoryAllocationError => "MemoryAllocationError"
  | FileNotFoundError => "FileNotFoundError"
  | UnicodeEncodeError => "UnicodeEncodeError"
  | ValueError => "ValueError"
  | KeyError => "KeyError"
  end.

(** An f-string is kept as its template and the values of its fields. *)
Inductive Msg :=
| Fmt (template : string) (fields : list Msg)
| Int (z : Z)
| Str (s : str)
| Name (s : string).

Record Exn := mkExn { kind : ExnKind; message : Msg }.

(** What [Logger.makeRecord] of the standard library raises when the
    [extra] of a logging call has the key [args]: the exception with which
    a failing call of a function decorated with [log_exceptions] ends (see
    [emit_extra] and [log_exceptions] below). *)
Definition args_KeyError : Exn :=
  mkExn KeyError (Fmt "Attempt to overwrite {!r} in LogRecord" [Name "args"]).

(** [str(e)]: the message of the exception; for a [KeyError] the [repr] of
    its argument. *)
Definition exn_str (e : Exn) : Msg :=
  match kind e with
  | KeyError => Fmt "{!r}" [message e]
  | _ => message e
  end.

Inductive Level := DEBUG | INFO | WARNING | ERROR.
Inductive LoggerName := logger | security_logger.
Record LogRecord := mkLog { log_to : LoggerName; level : Level; text : Msg }.

(** ** The kernel32 interface *)

(** Windows API constants of the class. *)
Definition ACCESS_MASK : Z := Z.lor (Z.lor 0x000F0000 0x00100000) 0x00000FFF.
Definition MEM_FLAGS : Z := Z.lor 0x00001000 0x00002000.
Definition FREE_MEM : Z := 0x8000.
Definition RWX_PERMISSIONS : Z := 0x40.

(** The foreign calls the module makes, with the arguments it passes.  A
    process handle is [self.proc_handle], which is [None] until a process
    was opened; arguments that are always [None] in the source are left
    out. *)
Inductive Call :=
| OpenProcess (access inherit pid : Z)
| CloseHandle (h : option Z)
| GetLastError
| VirtualAllocEx (h : option Z) (size flags protect : Z)
| VirtualFreeEx (h : option Z) (addr size free_type : Z)
| WriteProcessMemory (h : option Z) (addr : Z) (payload : bytes) (n : Z)
| ReadProcessMemory (h : option Z) (addr n : Z)
| CreateRemoteThread (h : option Z) (start param : Z)
| WaitForSingleObject (thread ms : Z)
| GetExitCodeThread (thread : Z)
| GetModuleHandleA (name : bytes)
| GetProcAddress (module : Z) (name : bytes)
| LoadLibraryA (path : bytes)
| FreeLibrary (module : Z).

(** What a call gives back: the returned integer and what it stored
    through its out-parameters ([byref(exit_code)], the read buffer). *)
Record Reply := mkReply { ret : Z; out_long : Z; out_raw : bytes }.

Definition reply (r : Z) : Reply := mkReply r 0 [].

(** The environment of the injector: kernel32 as a deterministic machine on
    some state, and the file system as [os.path.exists] sees it. *)
Class Kernel32 (OS : Type) := {
  k32 : OS -> Call -> OS * Reply;
  path_exists : OS -> str -> bool
}.

(** ** State and the monad of method bodies *)

Record World (OS : Type) := mkWorld {
  os : OS;
  trace : list (Call * Reply);
  log : list LogRecord
}.
Arguments mkWorld {OS}.
Arguments os {OS}.
Arguments trace {OS}.
Arguments log {OS}.

(** The fields of [self] that the methods assign. *)
Record DLLInjector := mkInjector {
  process_id : Z;
  proc_handle : option Z
}.

(** [__init__]: [c_ulong()] is zero and no handle is held. *)
Definition init : DLLInjector := mkInjector (c_ulong 0) None.

Inductive Outcome (A : Type) :=
| Return (a : A)
| Raise (e : Exn).
Arguments Return {A}.
Arguments Raise {A}.

Section Monad.
Context {OS : Type}.

Definition State : Type := DLLInjector * World OS.
Definition Py (A : Type) : Type := State -> Outcome A * State.

Definition pure {A} (a : A) : Py A := fun st => (Return a, st).

Definition bind {A B} (m : Py A) (k : A -> Py B) : Py B :=
  fun st =>
    match m st with
    | (Return a, st1) => k a st1
    | (Raise e, st1) => (Raise e, st1)
    end.

Definition raise {A} (k : ExnKind) (m : Msg) : Py A :=
  fun st => (Raise (mkExn k m), st).

Definition reraise {A} (e : Exn) : Py A := fun st => (Raise e, st).

(** [try: body finally: fin].  An exception of the [finally] block
    replaces the outcome of the body. *)
Definition try_finally {A} (body : Py A) (fin : Py unit) : Py A :=
  fun st =>
    let (r, st1) := body st in
    match fin st1 with
    | (Return _, st2) => (r, st2)
    | (Raise e, st2) => (Raise e, st2)
    end.

(** [try: body except Exception as e: handler e]. *)
Definition try_except {A} (body : Py A) (handler : Exn -> Py A) : Py A :=
  fun st =>
    match body st with
    | (Return a, st1) => (Return a, st1)
    | (Raise e, st1) => handler e st1
    end.

Definition emit (to : LoggerName) (lvl : Level) (m : Msg) : Py unit :=
  fun '(inj, w) =>
    (Return tt, (inj, mkWorld (os w) (trace w) (log w ++ [mkLog to lvl m]))).

(** The attributes a [LogRecord] has once [LogRecord.__init__] has run. *)
Definition LogRecord_attributes : list string :=
  ["name"; "msg"; "args"; "levelname"; "levelno"; "pathname"; "filename";
   "module"; "exc_info"; "exc_text"; "stack_info"; "lineno"; "funcName";
   "created"; "msecs"; "relativeCreated"; "thread"; "threadName";
   "processName"; "process"]%string.

(** The test of [Logger.makeRecord] on a key of [extra]. *)
Definition overwrites (key : string) : bool :=
  existsb (String.eqb key) ("message" :: "asctime" :: LogRecord_attributes)%string.

(** A logging call that passes [extra=...], at a level the logger lets
    through ([setup_module_logging] sets the level INFO).
    [Logger.makeRecord] of the standard library goes through the keys of
    [extra] in their order and raises [KeyError] at the first that would
    overwrite an attribute of the record; the record is handled, and so
    emitted, only after that. *)
Definition emit_extra (to : LoggerName) (lvl : Level) (m : Msg) (extra : list string)
    : Py unit :=
  match List.find overwrites extra with
  | Some key => raise KeyError (Fmt "Attempt to overwrite {!r} in LogRecord" [Name key])
  | None => emit to lvl m
  end.

Definition get_self : Py DLLInjector := fun '(inj, w) => (Return inj, (inj, w)).

Definition set_process_id (v : Z) : Py unit :=
  fun '(inj, w) => (Return tt, (mkInjector v (proc_handle inj), w)).

Definition set_proc_handle (v : option Z) : Py unit :=
  fun '(inj, w) => (Return tt, (mkInjector (process_id inj) v, w)).
End Monad.
Arguments State : clear implicits.
Arguments Py : clear implicits.

Declare Scope py_scope.
Delimit Scope py_scope with py.
Notation "x <- m ;; k" := (bind m (fun x => k))
  (at level 100, m at next level, right associativity) : py_scope.
Notation "m ;;; k" := (bind m (fun _ => k))
  (at level 100, right associativity) : py_scope.

(** Python truth value of an [Optional[int]] and of a returned integer. *)
Definition truthy (h : option Z) : bool :=
  match h with
  | Some z => negb (z =? 0)
  | None => false
  end.

Definition falsy (z : Z) : bool := z =? 0.

(** ** The methods of [DLLInjector] *)

Section Injector.
Context {OS : Type} `{Kernel32 OS}.
Local Open Scope py_scope.
Local Abbreviation Py := (Py OS).

(** [self.k32.f(...)] and [windll.kernel32.GetLastError()]: the call is
    answered by the environment and recorded. *)
Definition foreign (c : Call) : Py Reply :=
  fun '(inj, w) =>
    let (s, r) := k32 (os w) c in
    (Return r, (inj, mkWorld s (trace w ++ [(c, r)]) (log w))).

(** [os.path.exists(path)]. *)
Definition os_path_exists (path : str) : Py bool :=
  fun '(inj, w) => (Return (path_exists (os w) path), (inj, w)).

(** The keys of the [extra] that [log_exceptions] passes, in the order of
    the dict. *)
Definition exception_extra : list string :=
  ["function_name"; "module_name"; "exception_type"; "args"; "kwargs"]%string.

(** The decorator [log_exceptions(logger)] of [logging_utils]: the handler
    calls [logger.error] with [extra] and then has a bare [raise].  The key
    [args] of that [extra] is an attribute of every record, so the call
    raises [KeyError] and the [raise] after it is not reached. *)
Definition log_exceptions {A} (func_name : string) (body : Py A) : Py A :=
  try_except body (fun e =>
    emit_extra logger ERROR
      (Fmt "Exception in {}.{}: {}: {}"
         [Name "injector"; Name func_name; Name (kind_name (kind e)); exn_str e])
      exception_extra ;;;
    reraise e).

Definition cleanup : Py unit :=
  log_exceptions "cleanup" (
    self <- get_self ;;
    (if truthy (proc_handle self) then
       emit logger DEBUG
         (Fmt "Cleaning up process handle for PID: {}" [Int (process_id self)]) ;;;
       result <- foreign (CloseHandle (proc_handle self)) ;;
       (if falsy (ret result) then
          error_code <- foreign GetLastError ;;
          let error_msg :=
            Fmt "Failed to close process handle (Error: {})" [Int (ret error_code)] in
          emit logger ERROR error_msg ;;;
          raise DLLInjectionError error_msg
        else pure tt) ;;;
       emit logger DEBUG (Fmt "Process handle cleaned up successfully" []) ;;;
       emit security_logger DEBUG (Fmt "Process connection closed" [])
     else pure tt) ;;;
    set_proc_handle None).

Definition attach_to_pid (pid : Z) : Py unit :=
  log_exceptions "attach_to_pid" (
    emit logger INFO (Fmt "Attempting to attach to process PID: {}" [Int pid]) ;;;
    emit security_logger INFO
      (Fmt "Attaching to target process for security testing (PID: {})" [Int pid]) ;;;
    cleanup ;;;
    set_process_id (c_ulong pid) ;;;
    opened <- foreign (OpenProcess ACCESS_MASK 0 pid) ;;
    set_proc_handle (Some (ret opened)) ;;;
    (if falsy (ret opened) then
       error_code <- foreign GetLastError ;;
       let error_msg :=
         Fmt "Failed to open process {} (Error code: {})" [Int pid; Int (ret error_code)] in
       emit logger ERROR error_msg ;;;
       emit security_logger ERROR (Fmt "Process access denied: {}" [error_msg]) ;;;
       raise ProcessAccessError error_msg
     else pure tt) ;;;
    emit logger INFO (Fmt "Successfully attached to process PID: {}" [Int pid]) ;;;
    emit security_logger INFO (Fmt "Process attachment successful (PID: {})" [Int pid])).

Definition write_to_memory (address : Z) (payload : bytes) : Py unit :=
  log_exceptions "write_to_memory" (
    emit logger DEBUG
      (Fmt "Writing {} bytes to address 0x{:08x}" [Int (len payload); Int address]) ;;;
    self <- get_self ;;
    ok <- foreign (WriteProcessMemory (proc_handle self) address payload (len payload)) ;;
    (if falsy (ret ok) then
       error_code <- foreign GetLastError ;;
       let error_msg :=
         Fmt "Failed to write to memory at 0x{:08x} (Error: {})"
           [Int address; Int (ret error_code)] in
       emit logger ERROR error_msg ;;;
       raise DLLInjectionError error_msg
     else pure tt) ;;;
    emit logger DEBUG
      (Fmt "Successfully wrote {} bytes to 0x{:08x}" [Int (len payload); Int address])).

Definition allocate_remote_buffer (data : bytes) (length : Z) : Py Z :=
  log_exceptions "allocate_remote_buffer" (
    emit logger DEBUG (Fmt "Allocating remote buffer of {} bytes" [Int length]) ;;;
    self <- get_self ;;
    address <- foreign
      (VirtualAllocEx (proc_handle self) (c_int length) MEM_FLAGS RWX_PERMISSIONS) ;;
    (if falsy (ret address) then
       error_code <- foreign GetLastError ;;
       let error_msg :=
         Fmt "Failed to allocate {} bytes in remote process (Error: {})"
           [Int length; Int (ret error_code)] in
       emit logger ERROR error_msg ;;;
       emit security_logger ERROR (Fmt "Memory allocation failed: {}" [error_msg]) ;;;
       raise MemoryAllocationError error_msg
     else pure tt) ;;;
    emit logger DEBUG
      (Fmt "Successfully allocated buffer at address: 0x{:08x}" [Int (ret address)]) ;;;
    write_to_memory (ret address) data ;;;
    pure (ret address)).

Definition release_remote_buffer (addr length : Z) : Py unit :=
  log_exceptions "release_remote_buffer" (
    emit logger DEBUG
      (Fmt "Releasing remote buffer at 0x{:08x} ({} bytes)" [Int addr; Int length]) ;;;
    self <- get_self ;;
    ok <- foreign (VirtualFreeEx (proc_handle self) addr (c_int 0) FREE_MEM) ;;
    (if falsy (ret ok) then
       error_code <- foreign GetLastError ;;
       let error_msg :=
         Fmt "Failed to release memory at 0x{:08x} (Error: {})"
           [Int addr; Int (ret error_code)] in
       emit logger ERROR error_msg ;;;
       raise MemoryAllocationError error_msg
     else pure tt) ;;;
    emit logger DEBUG (Fmt "Successfully released buffer at 0x{:08x}" [Int addr])).

(** [s.encode("ascii")] as a statement: the strict codec raises
    [UnicodeEncodeError] with the string and the offending range. *)
Definition encode (s : str) : Py bytes :=
  match encode_ascii s with
  | Some b => pure b
  | None =>
      let '(i, j) := default (0, 0) (first_bad_run s 0) in
      raise UnicodeEncodeError
        (if j - i =? 1 then
           Fmt "'ascii' codec can't encode character {} in position {}: ordinal not in range(128)"
             [Str (take 1 (drop (Z.to_nat i) s)); Int i]
         else
           Fmt "'ascii' codec can't encode characters in position {}-{}: ordinal not in range(128)"
             [Int i; Int (j - 1)])
  end.

Definition get_func_address (dll func : str) : Py Z :=
  log_exceptions "get_func_address" (
    emit logger DEBUG (Fmt "Looking up function {} in {}" [Str func; Str dll]) ;;;
    dll_name <- encode dll ;;
    module_base <- foreign (GetModuleHandleA dll_name) ;;
    (if falsy (ret module_base) then
       error_code <- foreign GetLastError ;;
       let error_msg :=
         Fmt "Failed to get handle for {} (Error: {})" [Str dll; Int (ret error_code)] in
       emit logger ERROR error_msg ;;;
       raise DLLInjectionError error_msg
     else pure tt) ;;;
    func_name <- encode func ;;
    func_ptr <- foreign (GetProcAddress (ret module_base) func_name) ;;
    (if falsy (ret func_ptr) then
       error_code <- foreign GetLastError ;;
       let error_msg :=
         Fmt "Failed to get address of {} in {} (Error: {})"
           [Str func; Str dll; Int (ret error_code)] in
       emit logger ERROR error_msg ;;;
       raise DLLInjectionError error_msg
     else pure tt) ;;;
    emit logger DEBUG (Fmt "Found {} at address: 0x{:08x}" [Str func; Int (ret func_ptr)]) ;;;
    pure (ret func_ptr)).

Definition run_remote_function (addr : Z) (arg_data : bytes) : Py Z :=
  log_exceptions "run_remote_function" (
    emit logger DEBUG
      (Fmt "Executing remote function at 0x{:08x} with {} bytes of arguments"
         [Int addr; Int (len arg_data)]) ;;;
    arg_ptr <- allocate_remote_buffer arg_data (len arg_data) ;;
    try_finally (
      self <- get_self ;;
      thread <- foreign
        (CreateRemoteThread (proc_handle self) (c_long addr) (c_long arg_ptr)) ;;
      (if falsy (ret thread) then
         error_code <- foreign GetLastError ;;
         let error_msg :=
           Fmt "Failed to create remote thread (Error: {})" [Int (ret error_code)] in
         emit logger ERROR error_msg ;;;
         raise DLLInjectionError error_msg
       else pure tt) ;;;
      (* Wait for thread completion *)
      wait_result <- foreign (WaitForSingleObject (ret thread) 0xFFFFFFFF) ;;
      (if ret wait_result =? 0xFFFFFFFF then
         error_code <- foreign GetLastError ;;
         let error_msg :=
           Fmt "Failed to wait for remote thread (Error: {})" [Int (ret error_code)] in
         emit logger ERROR error_msg ;;;
         raise DLLInjectionError error_msg
       else pure tt) ;;;
      (* Get thread exit code *)
      got <- foreign (GetExitCodeThread (ret thread)) ;;
      (if falsy (ret got) then
         error_code <- foreign GetLastError ;;
         let error_msg :=
           Fmt "Failed to get thread exit code (Error: {})" [Int (ret error_code)] in
         emit logger ERROR error_msg ;;;
         raise DLLInjectionError error_msg
       else pure tt) ;;;
      let exit_code := c_long (out_long got) in
      emit logger DEBUG
        (Fmt "Remote function completed with exit code: {}" [Int exit_code]) ;;;
      pure exit_code
    ) (
      (* Always clean up the argument buffer *)
      release_remote_buffer arg_ptr (len arg_data)
    )).

Definition read_memory_region (address length : Z) : Py bytes :=
  log_exceptions "read_memory_region" (
    emit logger DEBUG
      (Fmt "Reading {} bytes from address 0x{:08x}" [Int length; Int address]) ;;;
    (* create_string_buffer(length) *)
    (if length <? 0 then
       raise ValueError (Fmt "Array length must be >= 0, not {}" [Int length])
     else pure tt) ;;;
    self <- get_self ;;
    ok <- foreign (ReadProcessMemory (proc_handle self) (c_long address) length) ;;
    (if falsy (ret ok) then
       error_code <- foreign GetLastError ;;
       let error_msg :=
         Fmt "Failed to read memory at 0x{:08x} (Error: {})"
           [Int address; Int (ret error_code)] in
       emit logger ERROR error_msg ;;;
       raise DLLInjectionError error_msg
     else pure tt) ;;;
    emit logger DEBUG
      (Fmt "Successfully read {} bytes from 0x{:08x}" [Int length; Int address]) ;;;
    (* buf.raw: the zero-filled buffer with what the call stored in it *)
    pure (take (Z.to_nat length) (out_raw ok ++ replicate (Z.to_nat length) x00))).

Definition load_library_into_target (dll_bytes : bytes) : Py Z :=
  log_exceptions "load_library_into_target" (
    emit logger DEBUG (Fmt "Loading library: {}" [Str (decode_ascii_replace dll_bytes)]) ;;;
    func_ptr <- get_func_address (str_of "kernel32.dll") (str_of "LoadLibraryA") ;;
    result <- run_remote_function func_ptr dll_bytes ;;
    (if result =? 0 then
       let error_msg :=
         Fmt "LoadLibraryA failed to load: {}" [Str (decode_ascii_replace dll_bytes)] in
       emit logger ERROR error_msg ;;;
       raise DLLInjectionError error_msg
     else pure tt) ;;;
    emit logger INFO
      (Fmt "Library loaded successfully at base address: 0x{:08x}" [Int result]) ;;;
    pure result).

(** [inject_shared_library] as it is written, before
    [@log_exceptions(logger)] wraps it (its [__wrapped__]). *)
Definition inject_shared_library_body (dll_path : str) : Py Z :=
    found <- os_path_exists dll_path ;;
    (if negb found then
       let error_msg := Fmt "DLL file not found: {}" [Str dll_path] in
       emit logger ERROR error_msg ;;;
       emit security_logger ERROR
         (Fmt "Injection failed - DLL not found: {}" [Str dll_path]) ;;;
       raise FileNotFoundError error_msg
     else pure tt) ;;;
    emit logger INFO (Fmt "Starting DLL injection: {}" [Str dll_path]) ;;;
    emit security_logger INFO
      (Fmt "Injecting DLL for security testing: {}" [Str dll_path]) ;;;
    try_except (
      dll_bytes <- encode dll_path ;;
      result <- load_library_into_target dll_bytes ;;
      emit logger INFO
        (Fmt "DLL injection successful - base address: 0x{:08x}" [Int result]) ;;;
      emit security_logger INFO (Fmt "DLL injection completed successfully" []) ;;;
      pure result
    ) (fun e =>
      emit logger ERROR (Fmt "DLL injection failed: {}" [exn_str e]) ;;;
      emit security_logger ERROR
        (Fmt "Security testing injection failed: {}" [exn_str e]) ;;;
      reraise e).

Definition inject_shared_library (dll_path : str) : Py Z :=
  log_exceptions "inject_shared_library" (inject_shared_library_body dll_path).

Definition resolve_func_offset (module_path : bytes) (func_name : str) : Py Z :=
  log_exceptions "resolve_func_offset" (
    let dll_path_str := decode_ascii_replace module_path in
    emit logger DEBUG
      (Fmt "Resolving function {} offset in {}" [Str func_name; Str dll_path_str]) ;;;
    (* Temporarily load the DLL in our process to get function addresses *)
    temp_base <- foreign (LoadLibraryA module_path) ;;
    (if falsy (ret temp_base) then
       error_code <- foreign GetLastError ;;
       let error_msg :=
         Fmt "Failed to load library {} for offset resolution (Error: {})"
           [Str dll_path_str; Int (ret error_code)] in
       emit logger ERROR error_msg ;;;
       raise DLLInjectionError error_msg
     else pure tt) ;;;
    try_finally (
      name <- encode func_name ;;
      func_ptr <- foreign (GetProcAddress (ret temp_base) name) ;;
      (if falsy (ret func_ptr) then
         error_code <- foreign GetLastError ;;
         let error_msg :=
           Fmt "Function {} not found in {} (Error: {})"
             [Str func_name; Str dll_path_str; Int (ret error_code)] in
         emit logger ERROR error_msg ;;;
         raise DLLInjectionError error_msg
       else pure tt) ;;;
      let offset := ret func_ptr - ret temp_base in
      emit logger DEBUG
        (Fmt "Function {} found at offset 0x{:08x}" [Str func_name; Int offset]) ;;;
      pure offset
    ) (
      (* Always unload the temporary library *)
      freed <- foreign (FreeLibrary (ret temp_base)) ;;
      if falsy (ret freed) then
        error_code <- foreign GetLastError ;;
        emit logger WARNING
          (Fmt "Failed to unload temporary library {} (Error: {})"
             [Str dll_path_str; Int (ret error_code)])
      else pure tt
    )).

Definition execute_exported (dll_path : str) (base_addr : Z) (func_name : str)
    (raw_args : bytes) : Py Z :=
  log_exceptions "execute_exported" (
    emit logger INFO
      (Fmt "Executing exported function {} from {}" [Str func_name; Str dll_path]) ;;;
    emit security_logger INFO
      (Fmt "Calling DLL function for security testing: {}" [Str func_name]) ;;;
    module_path <- encode dll_path ;;
    offset <- resolve_func_offset module_path func_name ;;
    let function_addr := base_addr + offset in
    emit logger DEBUG
      (Fmt "Function {} located at offset 0x{:08x}, address 0x{:08x}"
         [Str func_name; Int offset; Int function_addr]) ;;;
    result <- run_remote_function function_addr raw_args ;;
    emit logger INFO
      (Fmt "Function {} executed successfully with result: {}" [Str func_name; Int result]) ;;;
    pure result).

End Injector.

(** The methods are unfolded by name only, so that a run is read one call
    at a time. *)
Arguments cleanup : simpl never.
Arguments attach_to_pid : simpl never.
Arguments write_to_memory : simpl never.
Arguments allocate_remote_buffer : simpl never.
Arguments release_remote_buffer : simpl never.
Arguments get_func_address : simpl never.
Arguments run_remote_function : simpl never.
Arguments read_memory_region : simpl never.
Arguments load_library_into_target : simpl never.
Arguments inject_shared_library : simpl never.
Arguments resolve_func_offset : simpl never.
Arguments execute_exported : simpl never.

(** ** Reading the result of a run *)

Definition outcome_of {OS A} (r : Outcome A * State OS) : Outcome A := fst r.
Definition self_of {OS A} (r : Outcome A * State OS) : DLLInjector := fst (snd r).
Definition os_of {OS A} (r : Outcome A * State OS) : OS := os (snd (snd r)).
Definition trace_of {OS A} (r : Outcome A * State OS) : list (Call * Reply) :=
  trace (snd (snd r)).
Definition log_of {OS A} (r : Outcome A * State OS) : list LogRecord :=
  log (snd (snd r)).

(** ** Two environments *)

(** A scripted kernel32, in the manner of the [Mock] objects of the test
    suite: the calls are answered from a list of replies, in order, and with
    zero once the list is used up.  [files] are the paths that exist. *)
Module Scripted.
Record t := mk { replies : list Reply; files : list str }.

Definition step (s : t) (c : Call) : t * Reply :=
  match replies s with
  | r :: rest => (mk rest (files s), r)
  | [] => (s, reply 0)
  end.

Definition exists_ (s : t) (p : str) : bool := bool_decide (p ∈ files s).

#[global] Instance kernel32 : Kernel32 t :=
  {| k32 := step; path_exists := exists_ |}.

Definition world (rs : list Reply) (fs : list str) : World t :=
  mkWorld (mk rs fs) [] [].
End Scripted.

(** A model of the memory of target processes.  Process handles are opened
    on running processes; a region is committed by [VirtualAllocEx] below
    the 2 GiB line, written and read within its bounds, and released as a
    whole.  Threads and modules are not part of it: those calls fail. *)
Module Remote.
Record t := mk {
  running : gset Z;
  handles : gset Z;
  next_handle : Z;
  regions : list (Z * Z);
  memory : gmap Z byte;
  next_base : Z;
  last_error : Z
}.

Definition ERROR_INVALID_HANDLE : Z := 6.
Definition ERROR_INVALID_PARAMETER : Z := 87.
Definition ERROR_CALL_NOT_IMPLEMENTED : Z := 120.
Definition ERROR_INVALID_ADDRESS : Z := 487.
Definition ERROR_NOACCESS : Z := 998.

Definition fail (s : t) (code : Z) : t * Reply :=
  (mk (running s) (handles s) (next_handle s) (regions s) (memory s) (next_base s) code,
   reply 0).

Definition valid (s : t) (h : option Z) : bool :=
  match h with
  | Some z => bool_decide (z ∈ handles s)
  | None => false
  end.

Definition inside (s : t) (addr n : Z) : bool :=
  existsb (fun '(base, size) => (base <=? addr) && (addr + n <=? base + size)) (regions s).

Fixpoint store (m : gmap Z byte) (a : Z) (bs : bytes) : gmap Z byte :=
  match bs with
  | [] => m
  | b :: rest => store (<[a:=b]> m) (a + 1) rest
  end.

Fixpoint load (m : gmap Z byte) (a : Z) (n : nat) : bytes :=
  match n with
  | O => []
  | S k => default x00 (m !! a) :: load m (a + 1) k
  end.

Definition step (s : t) (c : Call) : t * Reply :=
  match c with
  | GetLastError => (s, reply (last_error s))
  | OpenProcess _ _ pid =>
      if bool_decide (pid ∈ running s) && (0 <? next_handle s) then
        (mk (running s) ({[next_handle s]} ∪ handles s) (next_handle s + 4)
            (regions s) (memory s) (next_base s) (last_error s),
         reply (next_handle s))
      else fail s ERROR_INVALID_PARAMETER
  | CloseHandle h =>
      if valid s h then
        (mk (running s) (handles s ∖ {[default 0 h]}) (next_handle s)
            (regions s) (memory s) (next_base s) (last_error s),
         reply 1)
      else fail s ERROR_INVALID_HANDLE
  | VirtualAllocEx h size flags protect =>
      if negb (valid s h) then fail s ERROR_INVALID_HANDLE
      else if (0 <? size) && (0 <? next_base s) && (next_base s + size <=? 2 ^ 31)
              && negb (Z.land flags 0x1000 =? 0)
              && ((protect =? 0x40) || (protect =? 0x04)) then
        (mk (running s) (handles s) (next_handle s)
            ((next_base s, size) :: regions s) (memory s) (next_base s + size)
            (last_error s),
         reply (next_base s))
      else fail s ERROR_INVALID_PARAMETER
  | VirtualFreeEx h addr size free_type =>
      if negb (valid s h) then fail s ERROR_INVALID_HANDLE
      else if (size =? 0) && (free_type =? 0x8000)
              && existsb (fun '(base, _) => base =? addr) (regions s) then
        (mk (running s) (handles s) (next_handle s)
            (filter (fun '(base, _) => base ≠ addr) (regions s)) (memory s)
            (next_base s) (last_error s),
         reply 1)
      else fail s ERROR_INVALID_ADDRESS
  | WriteProcessMemory h addr payload n =>
      if negb (valid s h) then fail s ERROR_INVALID_HANDLE
      else if (0 <=? n) && (n <=? len payload) && inside s addr n then
        (mk (running s) (handles s) (next_handle s) (regions s)
            (store (memory s) addr (take (Z.to_nat n) payload)) (next_base s)
            (last_error s),
         reply 1)
      else fail s ERROR_NOACCESS
  | ReadProcessMemory h addr n =>
      if negb (valid s h) then fail s ERROR_INVALID_HANDLE
      else if (0 <=? n) && inside s addr n then
        (s, mkReply 1 0 (load (memory s) addr (Z.to_nat n)))
      else fail s ERROR_NOACCESS
  | _ => fail s ERROR_CALL_NOT_IMPLEMENTED
  end.

#[global] Instance kernel32 : Kernel32 t :=
  {| k32 := step; path_exists := fun _ _ => false |}.

(** One running process, 1234, opened under handle 4; memory is handed
    out from 0x10000000 on. *)
Definition attached : t :=
  mk {[1234]} {[4]} 8 [] ∅ 0x10000000 0.
End Remote.

(** ** Concrete runs used below *)

(** An injector attached to process 1234 under handle 1234, as the mocks of
    the test suite set it up ([OpenProcess.return_value = 1234]). *)
Definition attached : DLLInjector := mkInjector (c_ulong 1234) (Some 1234).

(** [CloseHandle] succeeds. *)
Definition world_close_ok : World Scripted.t := Scripted.world [reply 1] [].

(** [CloseHandle] fails twice, with ERROR_INVALID_HANDLE (6). *)
Definition world_close_fails : World Scripted.t :=
  Scripted.world [reply 0; reply 6; reply 0; reply 6] [].

(** [CloseHandle] succeeds, [OpenProcess] is refused with
    ERROR_ACCESS_DENIED (5). *)
Definition world_open_denied : World Scripted.t :=
  Scripted.world [reply 1; reply 0; reply 5] [].

(** The injector attached to the process of the memory model, and a
    buffer written into it. *)
Definition remote_state : State Remote.t :=
  (mkInjector (c_ulong 1234) (Some 4), mkWorld Remote.attached [] []).

Definition roundtrip_payload : bytes := [x4d; x5a; x90; x00; xff].

Definition roundtrip_written : State Remote.t :=
  snd (allocate_remote_buffer roundtrip_payload (len roundtrip_payload) remote_state).

(** The path bytes of the injected library in the runs below. *)
Definition payload : bytes := [x61; x2e; x64; x6c; x6c].

(** Allocation succeeds at 0x10000000, the write fails with
    ERROR_ACCESS_DENIED (5). *)
Definition world_write_fails : World Scripted.t :=
  Scripted.world [reply 0x10000000; reply 0; reply 5] [].

(** Every call succeeds: the buffer is at 0x10000000, the thread handle is
    5678, the wait returns WAIT_OBJECT_0, the exit code is 42. *)
Definition world_run_ok : World Scripted.t :=
  Scripted.world
    [reply 0x10000000; reply 1; reply 5678; reply 0; mkReply 1 42 []; reply 1] [].

(** As before, but [GetExitCodeThread] fails with ERROR_INVALID_HANDLE (6). *)
Definition world_run_no_exit_code : World Scripted.t :=
  Scripted.world
    [reply 0x10000000; reply 1; reply 5678; reply 0; reply 0; reply 6; reply 1] [].

(** A path with a character outside ASCII, U+00E9, that names an existing
    file, and a path that names none. *)
Definition non_ascii_path : str := [0x63; 0xE9; 0x2E; 0x64; 0x6C; 0x6C]%N.
Definition missing_path : str := str_of "missing.dll".

Definition world_files : World Scripted.t := Scripted.world [] [non_ascii_path].


(** The library loads, the symbol is unknown (ERROR_PROC_NOT_FOUND, 127),
    and [FreeLibrary] fails as well. *)
Definition world_resolve_no_symbol : World Scripted.t :=
  Scripted.world [reply 0x50000000; reply 0; reply 127; reply 0; reply 126] [].

(** ** Observations on a trace *)

(** The process handle a call is made on, for the calls that take one. *)
Definition handle_arg (c : Call) : option (option Z) :=
  match c with
  | CloseHandle h
  | VirtualAllocEx h _ _ _
  | VirtualFreeEx h _ _ _
  | WriteProcessMemory h _ _ _
  | ReadProcessMemory h _ _
  | CreateRemoteThread h _ _ => Some h
  | _ => None
  end.

(** The calls that acquire or give up a handle. *)
Definition manages_handle (c : Call) : bool :=
  match c with
  | OpenProcess _ _ _ | CloseHandle _ => true
  | _ => false
  end.

(** The calls that reach into the target process. *)
Definition is_remote (c : Call) : bool :=
  match c with
  | VirtualAllocEx _ _ _ _
  | VirtualFreeEx _ _ _ _
  | WriteProcessMemory _ _ _ _
  | ReadProcessMemory _ _ _
  | CreateRemoteThread _ _ _ => true
  | _ => false
  end.

(** A call of a method that works on the process held under [h]: it
    neither opens nor closes a handle, and a process handle it takes is
    [h]. *)
Definition works_on (h : option Z) (c : Call) : bool :=
  negb (manages_handle c)
  && match handle_arg c with
     | Some h' => bool_decide (h' = h)
     | None => true
     end.

(** A call that stays in the injector's own process. *)
Definition is_local (c : Call) : bool :=
  negb (manages_handle c) && negb (is_remote c).

Definition is_VirtualFreeEx (c : Call) : bool :=
  match c with VirtualFreeEx _ _ _ _ => true | _ => false end.

(** [m] lets no exception out but [e0]. *)
Definition raises_only {OS A} (e0 : Exn) (m : Py OS A) : Prop :=
  forall st e, outcome_of (m st) = Raise e -> e = e0.

(** A method run from an injector [inj] is framed by [allowed] when it
    leaves the injector as it was, only adds to the trace and to the log,
    and makes only [allowed] calls. *)
Definition framed {OS A} (allowed : Call -> bool) (inj : DLLInjector) (m : Py OS A) : Prop :=
  forall w,
    self_of (m (inj, w)) = inj
    /\ exists evs lg,
         trace_of (m (inj, w)) = trace w ++ evs
         /\ log_of (m (inj, w)) = log w ++ lg
         /\ Forall (fun ev => allowed (fst ev) = true) evs.

(** The two names [load_library_into_target] looks up, as it encodes them. *)
Definition kernel32_dll : bytes :=
  Eval cbv in default [] (encode_ascii (str_of "kernel32.dll")).
Definition LoadLibraryA_name : bytes :=
  Eval cbv in default [] (encode_ascii (str_of "LoadLibraryA")).

(** ** [launch_target] and [subprocess.Popen] *)

(** What [subprocess.Popen([exe_path], ...)] comes to: the process is
    started and has a pid, or the call raises [OSError], which
    [launch_target] catches, or it raises something else, which it does
    not. *)
Inductive Launch :=
| Started (pid : Z)
| LaunchOSError (reason : Msg)
| LaunchError (e : Exn).

Class Subprocess (OS : Type) := {
  popen : OS -> str -> OS * Launch
}.

Section Launcher.
Context {OS : Type} `{Kernel32 OS} `{Subprocess OS}.
Local Open Scope py_scope.
Local Abbreviation Py := (Py OS).

(** [subprocess.Popen([exe_path], stderr=DEVNULL, stdout=DEVNULL)], with
    the [OSError] kept apart as a value for the [except OSError] clause. *)
Definition subprocess_Popen (exe_path : str) : Py (Z + Msg) :=
  fun '(inj, w) =>
    let (s, l) := popen (os w) exe_path in
    let st := (inj, mkWorld s (trace w) (log w)) in
    match l with
    | Started pid => (Return (inl pid), st)
    | LaunchOSError reason => (Return (inr reason), st)
    | LaunchError e => (Raise e, st)
    end.

Definition launch_target (exe_path : str) : Py Z :=
  log_exceptions "launch_target" (
    emit logger INFO (Fmt "Launching target executable: {}" [Str exe_path]) ;;;
    emit security_logger INFO
      (Fmt "Starting process for security testing: {}" [Str exe_path]) ;;;
    process <- subprocess_Popen exe_path ;;
    match process with
    | inl pid =>
        emit logger INFO
          (Fmt "Successfully launched target process with PID: {}" [Int pid]) ;;;
        emit security_logger INFO
          (Fmt "Target process started successfully (PID: {})" [Int pid]) ;;;
        pure pid
    | inr e =>
        emit logger ERROR
          (Fmt "Failed to launch target executable {}: {}" [Str exe_path; e]) ;;;
        emit security_logger ERROR (Fmt "Process launch failed: {}" [e]) ;;;
        raise DLLInjectionError (Fmt "Could not launch target: {}" [e])
    end).
End Launcher.
Arguments launch_target : simpl never.

(** ** The callers in [injector/inject.py]

    The records of these functions go to that module's own [logger] and
    [security_logger]; the log keeps the name of the variable. *)

Section Callers.
Context {OS : Type} `{Kernel32 OS}.
Local Open Scope py_scope.
Local Abbreviation Py := (Py OS).

(** [os.path.join], and the directory two levels above the module, are
    taken as given. *)
Variable os_path_join : str -> list str -> str.
Variable project_root : str.

(** The [__name__] of the module: [inject] when it is imported, [__main__]
    when it is run. *)
Variable module_name : string.

(** [log_exceptions(logger)] as it decorates a function of a module. *)
Definition log_exceptions_of {A} (module func_name : string) (body : Py A) : Py A :=
  try_except body (fun e =>
    emit_extra logger ERROR
      (Fmt "Exception in {}.{}: {}: {}"
         [Name module; Name func_name; Name (kind_name (kind e)); exn_str e])
      exception_extra ;;;
    reraise e).

(** The locations [find_dll_path] tries, in its order. *)
Definition dll_paths : list str :=
  [ os_path_join project_root
      [str_of "dll-hook"; str_of "build"; str_of "Release"; str_of "hook.dll"];
    os_path_join project_root
      [str_of "dll-hook"; str_of "build"; str_of "Debug"; str_of "hook.dll"];
    os_path_join project_root
      [str_of "bin"; str_of "Release"; str_of "x64"; str_of "DLLHooks.dll"];
    os_path_join project_root
      [str_of "bin"; str_of "Debug"; str_of "x64"; str_of "DLLHooks.dll"];
    os_path_join project_root [str_of "DLLHooks.dll"] ].

(** [for path in paths: if os.path.exists(path): ... return path], and the
    statements after the loop in [otherwise]. *)
Fixpoint first_existing (paths : list str) (otherwise : Py str) : Py str :=
  match paths with
  | [] => otherwise
  | path :: rest =>
      found <- os_path_exists path ;;
      if found then
        emit logger INFO (Fmt "Found DLL at: {}" [Str path]) ;;;
        emit security_logger INFO (Fmt "Security testing DLL located: {}" [Str path]) ;;;
        pure path
      else first_existing rest otherwise
  end.

Definition find_dll_path : Py str :=
  log_exceptions_of module_name "find_dll_path" (
    emit logger INFO (Fmt "Searching for DLL hook library" []) ;;;
    first_existing dll_paths (
      let error_msg :=
        Fmt "DLL not found in any expected locations: {}" [Fmt "[]" (map Str dll_paths)] in
      emit logger ERROR error_msg ;;;
      emit security_logger ERROR
        (Fmt "Security testing DLL not found - build may be required" []) ;;;
      raise FileNotFoundError error_msg)).

(** What [monitor_and_inject] does with a process that matched: attach,
    inject, clean up and report [True]; on any exception clean up, keeping
    to itself what the cleanup raises, and report [False]. *)
Definition injection_attempt (pid : Z) (dll_path : str) : Py bool :=
  try_except (
    (* Attach to the process *)
    attach_to_pid pid ;;;
    (* Inject the DLL *)
    base_addr <- inject_shared_library dll_path ;;
    emit logger INFO
      (Fmt "DLL injection successful - base address: 0x{:08x}" [Int base_addr]) ;;;
    emit security_logger INFO
      (Fmt "Security testing DLL injection completed successfully" []) ;;;
    (* Clean up *)
    cleanup ;;;
    pure true
  ) (fun injection_error =>
    emit logger ERROR (Fmt "DLL injection failed: {}" [exn_str injection_error]) ;;;
    emit security_logger ERROR
      (Fmt "Security testing injection failed: {}" [exn_str injection_error]) ;;;
    (* Clean up on failure *)
    try_except cleanup (fun cleanup_error =>
      emit logger WARNING (Fmt "Cleanup failed: {}" [exn_str cleanup_error])) ;;;
    pure false).
End Callers.
Arguments find_dll_path : simpl never.
Arguments injection_attempt : simpl never.

(** ** More concrete runs *)

(** The scripted environment starts a process, 4242, for the paths that
    exist and refuses the others as the file system does. *)
#[global] Instance scripted_subprocess : Subprocess Scripted.t :=
  {| popen s exe_path :=
       (s, if Scripted.exists_ s exe_path then Started 4242
           else LaunchOSError
                  (Fmt "[WinError 2] The system cannot find the file specified" [])) |}.

(** Every call of a run succeeds but the release of the buffer, which
    fails with ERROR_INVALID_ADDRESS (487). *)
Definition world_run_release_fails : World Scripted.t :=
  Scripted.world
    [reply 0x10000000; reply 1; reply 5678; reply 0; mkReply 1 42 []; reply 0; reply 487] [].

(** The library [a.dll] exists; kernel32.dll is at 0x77000000 and
    LoadLibraryA at 0x77001000; the remote thread returns 0x6a000000, the
    base the library was loaded at. *)
Definition a_dll : str := str_of "a.dll".

Definition world_inject_ok : World Scripted.t :=
  Scripted.world
    [reply 0x77000000; reply 0x77001000;
     reply 0x10000000; reply 1; reply 5678; reply 0; mkReply 1 0x6a000000 []; reply 1]
    [a_dll].

(** As before, but the remote [LoadLibraryA] returns 0. *)
Definition world_inject_zero : World Scripted.t :=
  Scripted.world
    [reply 0x77000000; reply 0x77001000;
     reply 0x10000000; reply 1; reply 5678; reply 0; mkReply 1 0 []; reply 1]
    [a_dll].

(** kernel32.dll is found, LoadLibraryA is not (ERROR_PROC_NOT_FOUND). *)
Definition world_no_loader : World Scripted.t :=
  Scripted.world [reply 0x77000000; reply 0; reply 127] [a_dll].

(** The library loads locally at 0x50000000 with [Hook] at 0x50001230 and
    is unloaded; the call of [Hook] in the target returns 42. *)
Definition world_call_ok : World Scripted.t :=
  Scripted.world
    [reply 0x50000000; reply 0x50001230; reply 1;
     reply 0x10000000; reply 1; reply 5678; reply 0; mkReply 1 42 []; reply 1]
    [a_dll].

(** A whole attempt: the process opens under handle 1234, the injection
    goes through, the handle is closed. *)
Definition world_attempt_ok : World Scripted.t :=
  Scripted.world
    [reply 1234;
     reply 0x77000000; reply 0x77001000;
     reply 0x10000000; reply 1; reply 5678; reply 0; mkReply 1 0x6a000000 []; reply 1;
     reply 1]
    [a_dll].

(** An [os.path.join] for the runs: the parts after a backslash each. *)
Definition join_backslash (root : str) (parts : list str) : str :=
  root ++ concat (map (fun p => 0x5C%N :: p) parts).

Definition root_dir : str := str_of "C:\proj".

(** Only the debug build of the hook library is there. *)
Definition world_debug_build : World Scripted.t :=
  Scripted.world []
    [join_backslash root_dir [str_of "DLLHooks.dll"];
     join_backslash root_dir
       [str_of "dll-hook"; str_of "build"; str_of "Debug"; str_of "hook.dll"]].

(** The regions of the memory model are in order when each has a size above
    zero and ends at or below the next free base. *)
Definition remote_tidy (s : Remote.t) : bool :=
  forallb (fun '(base, size) => (0 <? size) && (base + size <=? Remote.next_base s))
    (Remote.regions s).


(** The memory model with one running process and no handle open yet. *)
Definition remote_fresh : World Remote.t :=
  mkWorld (Remote.mk {[1234]} ∅ 4 [] ∅ 0x10000000 0) [] [].

(** The allocation fails with ERROR_NOT_ENOUGH_MEMORY (8). *)
Definition world_no_memory : World Scripted.t := Scripted.world [reply 0; reply 8] [].

(** * Properties *)

Ltac py_unfold :=
  unfold outcome_of, self_of, os_of, trace_of, log_of,
    log_exceptions, emit_extra, try_except, try_finally, bind, pure, raise, reraise,
    emit, get_self, set_proc_handle, set_process_id, foreign, os_path_exists in *.

(** Walk through a run kept in hypothesis [H]: split on the next reply of
    kernel32 or on the next test of the source. *)
Ltac py_case H :=
  match type of H with
  | context [match k32 ?s ?c with _ => _ end] =>
      let E := fresh "Ecall" in destruct (k32 s c) as [? ?] eqn:E; cbn in H
  | context [if falsy ?z then _ else _] =>
      let E := fresh "Etest" in destruct (falsy z) eqn:E; cbn in H
  | context [if (?a =? ?b)%Z then _ else _] =>
      let E := fresh "Etest" in destruct (a =? b)%Z eqn:E; cbn in H
  end.

(** The same walk on the goal. *)
Ltac py_case_goal :=
  match goal with
  | |- context [match k32 ?s ?c with _ => _ end] =>
      let E := fresh "Ecall" in destruct (k32 s c) as [? ?] eqn:E; cbn
  | |- context [if falsy ?z then _ else _] =>
      let E := fresh "Etest" in destruct (falsy z) eqn:E; cbn
  | |- context [if (?a =? ?b)%Z then _ else _] =>
      let E := fresh "Etest" in destruct (a =? b)%Z eqn:E; cbn
  end.

Ltac in_list := cbn; repeat (first [left; reflexivity | right]).

(** A record is among those a run added to the log. *)
Ltac log_has := rewrite ?in_app_iff; cbn; repeat (first [left; reflexivity | right]).

Lemma falsy_true (z : Z) : falsy z = true <-> z = 0.
Proof. unfold falsy. apply Z.eqb_eq. Qed.

Lemma falsy_false (z : Z) : falsy z = false <-> z <> 0.
Proof. unfold falsy. apply Z.eqb_neq. Qed.

Lemma truthy_Some (h : option Z) :
  truthy h = true <-> exists z, h = Some z /\ z <> 0.
Proof.
  destruct h as [z|]; cbn.
  - rewrite negb_true_iff, Z.eqb_neq. split.
    + intros Hz. exists z. auto.
    + intros (z' & Heq & Hz). congruence.
  - split; [discriminate|]. intros (z & Heq & _). discriminate.
Qed.

(** ** [cleanup] *)

Section Cleanup.
Context {OS : Type} `{Kernel32 OS}.
Implicit Types (inj : DLLInjector) (w : World OS).

(** No handle is held: nothing is called, nothing is logged. *)
Lemma cleanup_not_held inj w :
  truthy (proc_handle inj) = false ->
  cleanup (inj, w) = (Return tt, (mkInjector (process_id inj) None, w)).
Proof.
  intros Hf. unfold cleanup. py_unfold. rewrite Hf. destruct w; reflexivity.
Qed.

(** A handle is held and [CloseHandle] reports success. *)
Lemma cleanup_closed inj w s r :
  truthy (proc_handle inj) = true ->
  k32 (os w) (CloseHandle (proc_handle inj)) = (s, r) ->
  ret r <> 0 ->
  exists lg,
    cleanup (inj, w) =
      (Return tt,
       (mkInjector (process_id inj) None,
        mkWorld s (trace w ++ [(CloseHandle (proc_handle inj), r)]) lg)).
Proof.
  intros Ht Hk Hr. apply falsy_false in Hr.
  unfold cleanup. py_unfold. rewrite Ht. cbn.
  rewrite Hk. cbn. rewrite Hr. cbn. eexists. reflexivity.
Qed.

(** A handle is held and [CloseHandle] reports failure: the body raises
    [DLLInjectionError], and the decorator's handler puts its [KeyError] in
    its place. *)
Lemma cleanup_close_failed inj w s r s' code :
  truthy (proc_handle inj) = true ->
  k32 (os w) (CloseHandle (proc_handle inj)) = (s, r) ->
  ret r = 0 ->
  k32 s GetLastError = (s', code) ->
  exists lg,
    cleanup (inj, w) =
      (Raise args_KeyError,
       (inj,
        mkWorld s'
          (trace w ++ [(CloseHandle (proc_handle inj), r); (GetLastError, code)]) lg)).
Proof.
  intros Ht Hk Hr Hc. apply falsy_true in Hr.
  unfold cleanup. py_unfold. rewrite Ht. cbn.
  rewrite Hk. cbn. rewrite Hr. cbn. rewrite Hc. cbn.
  rewrite <- app_assoc. cbn. eexists. reflexivity.
Qed.

(** The three cases together. *)
Lemma cleanup_cases inj w :
  (truthy (proc_handle inj) = false /\
   cleanup (inj, w) = (Return tt, (mkInjector (process_id inj) None, w)))
  \/ (exists h w1, proc_handle inj = Some h /\ h <> 0 /\
        ret (snd (k32 (os w) (CloseHandle (Some h)))) <> 0 /\
        cleanup (inj, w) = (Return tt, (mkInjector (process_id inj) None, w1)))
  \/ (exists h e w1, proc_handle inj = Some h /\ h <> 0 /\
        ret (snd (k32 (os w) (CloseHandle (Some h)))) = 0 /\
        e = args_KeyError /\
        cleanup (inj, w) = (Raise e, (inj, w1))).
Proof.
  destruct (truthy (proc_handle inj)) eqn:Ht.
  - right. destruct (proj1 (truthy_Some _) Ht) as (h & Hh & Hnz).
    destruct (k32 (os w) (CloseHandle (proc_handle inj))) as [s r] eqn:Hk.
    destruct (Z.eq_dec (ret r) 0) as [Hr|Hr].
    + right. destruct (k32 s GetLastError) as [s' code] eqn:Hc.
      destruct (cleanup_close_failed inj w s r s' code Ht Hk Hr Hc) as [lg Hrun].
      rewrite Hh in Hk. exists h. eexists. eexists.
      rewrite Hk. cbn.
      split; [exact Hh|]. split; [exact Hnz|]. split; [exact Hr|].
      split; [|exact Hrun]. reflexivity.
    + left. destruct (cleanup_closed inj w s r Ht Hk Hr) as [lg Hrun].
      rewrite Hh in Hk. exists h. eexists. rewrite Hk. cbn.
      split; [exact Hh|]. split; [exact Hnz|]. split; [exact Hr|]. exact Hrun.
  - left. split; [reflexivity|]. now apply cleanup_not_held.
Qed.

(** C4. [cleanup] is idempotent.  Without a handle (never opened, or
    already closed and so [None]) it returns at once and changes nothing:
    no call, no log record.  Whenever a call of [cleanup] returns, a second
    call in a row returns too and is such a no-op; so when the operating
    system does not report a failure of [CloseHandle], two calls in a row
    do not raise.  An exception leaves [cleanup] only when a live
    (non-zero) handle is held and [CloseHandle] on it returned zero; it is
    then not the [DLLInjectionError] that the body raises but the
    [KeyError] of the decorator's logging call. *)
Theorem cleanup_idempotent inj w :
  (proc_handle inj = None -> cleanup (inj, w) = (Return tt, (inj, w)))
  /\ (forall st1, cleanup (inj, w) = (Return tt, st1) ->
        cleanup st1 = (Return tt, st1))
  /\ (truthy (proc_handle inj) = false \/
      ret (snd (k32 (os w) (CloseHandle (proc_handle inj)))) <> 0 ->
      exists st1, cleanup (inj, w) = (Return tt, st1) /\
                  proc_handle (fst st1) = None /\
                  cleanup st1 = (Return tt, st1))
  /\ (forall e st1, cleanup (inj, w) = (Raise e, st1) ->
        e = args_KeyError /\
        exists h, proc_handle inj = Some h /\ h <> 0 /\
                  ret (snd (k32 (os w) (CloseHandle (Some h)))) = 0).
Proof.
  assert (Hnone : forall st1, cleanup (inj, w) = (Return tt, st1) ->
                    proc_handle (fst st1) = None /\ cleanup st1 = (Return tt, st1)).
  { intros st1 Hrun.
    destruct (cleanup_cases inj w)
      as [[_ Hc] | [(h & w1 & _ & _ & _ & Hc) | (h & e & w1 & _ & _ & _ & _ & Hc)]];
      rewrite Hc in Hrun; inversion Hrun; subst; cbn; split; try reflexivity;
      now rewrite cleanup_not_held. }
  split; [|split; [|split]].
  - intros Hn. rewrite cleanup_not_held by now rewrite Hn.
    destruct inj as [p h]; cbn in Hn; now subst.
  - intros st1 Hrun. now apply Hnone.
  - intros Hok.
    destruct (cleanup_cases inj w)
      as [[_ Hc] | [(h & w1 & _ & _ & _ & Hc) | (h & e & w1 & Hh & Hnz & Hr & _ & Hc)]].
    + eexists; split; [exact Hc|]. now apply Hnone.
    + eexists; split; [exact Hc|]. now apply Hnone.
    + exfalso. destruct Hok as [Hf | Hr'].
      * rewrite Hh in Hf. cbn in Hf. apply negb_false_iff, Z.eqb_eq in Hf. contradiction.
      * rewrite Hh in Hr'. contradiction.
  - intros e st1 Hrun.
    destruct (cleanup_cases inj w)
      as [[_ Hc] | [(h & w1 & _ & _ & _ & Hc) | (h & e' & w1 & Hh & Hnz & Hr & Hk & Hc)]];
      rewrite Hc in Hrun; inversion Hrun; subst.
    split; [reflexivity|]. exists h. auto.
Qed.

(** C9. When [CloseHandle] reports failure on the held handle, [cleanup]
    is left by an exception before [self.proc_handle] is cleared: the
    injector is unchanged and still holds the same handle, and the next
    [cleanup] begins by calling [CloseHandle] on that same handle.  The
    exception that reaches the caller is the [KeyError] of the decorator's
    logging call, which takes the place of the [DLLInjectionError] raised
    in the body. *)
Theorem cleanup_failure_keeps_handle inj w h s1 closed s2 code :
  proc_handle inj = Some h -> h <> 0 ->
  k32 (os w) (CloseHandle (Some h)) = (s1, closed) -> ret closed = 0 ->
  k32 s1 GetLastError = (s2, code) ->
  let r := cleanup (inj, w) in
  outcome_of r = Raise args_KeyError
  /\ self_of r = inj
  /\ proc_handle (self_of r) = Some h
  /\ os_of r = s2
  /\ trace_of r = trace w ++ [(CloseHandle (Some h), closed); (GetLastError, code)]
  /\ exists evs,
       trace_of (cleanup (snd r)) =
         trace_of r ++ (CloseHandle (Some h), snd (k32 s2 (CloseHandle (Some h)))) :: evs.
Proof.
  intros Hh Hnz Hk Hr Hc r.
  assert (Ht : truthy (proc_handle inj) = true).
  { apply truthy_Some. eauto. }
  rewrite <- Hh in Hk.
  destruct (cleanup_close_failed inj w s1 closed s2 code Ht Hk Hr Hc) as [lg Hrun].
  subst r. rewrite Hrun. unfold outcome_of, self_of, os_of, trace_of. cbn.
  rewrite Hh. repeat split; try reflexivity.
  match goal with |- context [cleanup (inj, ?w')] => set (w1 := w') end.
  destruct (k32 s2 (CloseHandle (Some h))) as [s3 again] eqn:Hk2.
  assert (Hk2' : k32 (os w1) (CloseHandle (proc_handle inj)) = (s3, again))
    by (rewrite Hh; exact Hk2).
  destruct (Z.eq_dec (ret again) 0) as [Hz|Hz].
  - destruct (k32 s3 GetLastError) as [s4 code2] eqn:Hc2.
    destruct (cleanup_close_failed inj w1 s3 again s4 code2 Ht Hk2' Hz Hc2)
      as [lg2 Hrun2].
    rewrite Hrun2. cbn. rewrite Hh. eexists. reflexivity.
  - destruct (cleanup_closed inj w1 s3 again Ht Hk2' Hz) as [lg2 Hrun2].
    rewrite Hrun2. cbn. rewrite Hh. eexists. reflexivity.
Qed.
End Cleanup.

Lemma cleanup_idempotent_witness :
  (exists st1, cleanup (attached, world_close_ok) = (Return tt, st1) /\
               proc_handle (fst st1) = None /\
               cleanup st1 = (Return tt, st1))
  /\ cleanup (init, world_close_ok) = (Return tt, (init, world_close_ok))
  /\ outcome_of (cleanup (attached, world_close_fails)) = Raise args_KeyError.
Proof.
  destruct (cleanup_idempotent attached world_close_ok) as (_ & _ & Hok & _).
  destruct (cleanup_idempotent init world_close_ok) as (Hnone & _).
  destruct (cleanup_idempotent attached world_close_fails) as (_ & _ & _ & Hraise).
  split; [|split].
  - apply Hok. right. cbn. discriminate.
  - apply Hnone. reflexivity.
  - destruct (cleanup (attached, world_close_fails)) as [[a|e] st1] eqn:Hrun.
    + vm_compute in Hrun. discriminate Hrun.
    + destruct (Hraise e st1 eq_refl) as [He _]. rewrite He. reflexivity.
Defined.

Lemma cleanup_failure_keeps_handle_witness :
  proc_handle attached = Some 1234
  /\ let r := cleanup (attached, world_close_fails) in
     outcome_of r = Raise args_KeyError
     /\ self_of r = attached
     /\ proc_handle (self_of r) = Some 1234
     /\ os_of r = Scripted.mk [reply 0; reply 6] []
     /\ trace_of r = [(CloseHandle (Some 1234), reply 0); (GetLastError, reply 6)]
     /\ exists evs,
          trace_of (cleanup (snd r)) =
            trace_of r ++ (CloseHandle (Some 1234), reply 0) :: evs.
Proof.
  split; [reflexivity|].
  exact (cleanup_failure_keeps_handle attached world_close_fails 1234
           (Scripted.mk [reply 6; reply 0; reply 6] []) (reply 0)
           (Scripted.mk [reply 0; reply 6] []) (reply 6)
           eq_refl ltac:(discriminate) eq_refl eq_refl eq_refl).
Defined.

(** ** [attach_to_pid] *)

Section Attach.
Context {OS : Type} `{Kernel32 OS}.
Implicit Types (inj : DLLInjector) (w : World OS).

(** The old handle cannot be closed: [attach_to_pid] stops there. *)
Lemma attach_close_failed inj w h pid s1 closed s2 code :
  proc_handle inj = Some h -> h <> 0 ->
  k32 (os w) (CloseHandle (Some h)) = (s1, closed) -> ret closed = 0 ->
  k32 s1 GetLastError = (s2, code) ->
  let r := attach_to_pid pid (inj, w) in
  outcome_of r = Raise args_KeyError
  /\ self_of r = inj
  /\ trace_of r = trace w ++ [(CloseHandle (Some h), closed); (GetLastError, code)].
Proof.
  intros Hh Hnz Hk Hr Hc r.
  assert (Ht : truthy (proc_handle inj) = true) by (apply truthy_Some; eauto).
  subst r. unfold attach_to_pid. py_unfold. cbn.
  match goal with |- context [cleanup (inj, ?w')] => set (w1 := w') end.
  assert (Hk' : k32 (os w1) (CloseHandle (proc_handle inj)) = (s1, closed))
    by (rewrite Hh; exact Hk).
  destruct (cleanup_close_failed inj w1 s1 closed s2 code Ht Hk' Hr Hc) as [lg Hrun].
  rewrite Hrun. cbn. rewrite Hh. repeat split; reflexivity.
Qed.

(** C5. An injector that holds a handle [h] and is asked to attach to
    [pid] first calls [CloseHandle h]; [OpenProcess] comes after it, and
    not at all when the old handle could not be closed.  Once the old
    handle is closed: if [OpenProcess] returns zero (access denied, no such
    process) the body logs the failure with the code [GetLastError]
    reported and raises [ProcessAccessError] with that message, but the
    caller gets the [KeyError] of the decorator's logging call, which
    carries no code; otherwise the injector holds the new handle for the
    new process id. *)
Theorem attach_replaces_handle inj w h pid s1 closed s2 opened s3 code :
  proc_handle inj = Some h -> h <> 0 ->
  k32 (os w) (CloseHandle (Some h)) = (s1, closed) ->
  k32 s1 (OpenProcess ACCESS_MASK 0 pid) = (s2, opened) ->
  k32 s2 GetLastError = (s3, code) ->
  let r := attach_to_pid pid (inj, w) in
  (exists evs,
     trace_of r = trace w ++ (CloseHandle (Some h), closed) :: evs /\
     (ret closed = 0 -> forall a i p rp, ~ In (OpenProcess a i p, rp) evs))
  /\ (ret closed <> 0 ->
      if ret opened =? 0 then
        outcome_of r = Raise args_KeyError
        /\ trace_of r =
             trace w ++ [(CloseHandle (Some h), closed);
                         (OpenProcess ACCESS_MASK 0 pid, opened);
                         (GetLastError, code)]
        /\ In (mkLog logger ERROR
                 (Fmt "Failed to open process {} (Error code: {})"
                    [Int pid; Int (ret code)]))
              (log_of r)
      else
        outcome_of r = Return tt
        /\ self_of r = mkInjector (c_ulong pid) (Some (ret opened))
        /\ trace_of r =
             trace w ++ [(CloseHandle (Some h), closed);
                         (OpenProcess ACCESS_MASK 0 pid, opened)]).
Proof.
  intros Hh Hnz Hk Ho Hc r.
  assert (Ht : truthy (proc_handle inj) = true) by (apply truthy_Some; eauto).
  assert (Hopen : ret closed <> 0 ->
    if ret opened =? 0 then
      outcome_of r = Raise args_KeyError
      /\ trace_of r =
           trace w ++ [(CloseHandle (Some h), closed);
                       (OpenProcess ACCESS_MASK 0 pid, opened);
                       (GetLastError, code)]
      /\ In (mkLog logger ERROR
               (Fmt "Failed to open process {} (Error code: {})"
                  [Int pid; Int (ret code)]))
            (log_of r)
    else
      outcome_of r = Return tt
      /\ self_of r = mkInjector (c_ulong pid) (Some (ret opened))
      /\ trace_of r =
           trace w ++ [(CloseHandle (Some h), closed);
                       (OpenProcess ACCESS_MASK 0 pid, opened)]).
  { intros Hr. subst r. unfold attach_to_pid. py_unfold. cbn.
    match goal with |- context [cleanup (inj, ?w')] => set (w1 := w') end.
    assert (Hk' : k32 (os w1) (CloseHandle (proc_handle inj)) = (s1, closed))
      by (rewrite Hh; exact Hk).
    destruct (cleanup_closed inj w1 s1 closed Ht Hk' Hr) as [lg Hrun].
    rewrite Hrun. cbn. rewrite Ho. cbn. unfold falsy.
    destruct (ret opened =? 0) eqn:Hz; cbn.
    - rewrite Hc. cbn. rewrite Hh, <- !app_assoc. cbn.
      split; [reflexivity|]. split; [reflexivity|]. log_has.
    - rewrite Hh, <- !app_assoc. cbn. repeat split; reflexivity. }
  split; [|exact Hopen].
  destruct (Z.eq_dec (ret closed) 0) as [Hr|Hr].
  - destruct (k32 s1 GetLastError) as [s2' code'] eqn:Hc'.
    destruct (attach_close_failed inj w h pid s1 closed s2' code' Hh Hnz Hk Hr Hc')
      as (_ & _ & Htr).
    fold r in Htr. rewrite Htr. eexists. split; [reflexivity|].
    intros _ a i p rp [E|[]]. discriminate E.
  - specialize (Hopen Hr). destruct (ret opened =? 0).
    + destruct Hopen as (_ & Htr & _). rewrite Htr. eexists. split; [reflexivity|].
      intros Hz. contradiction.
    + destruct Hopen as (_ & _ & Htr). rewrite Htr. eexists. split; [reflexivity|].
      intros Hz. contradiction.
Qed.
End Attach.

Lemma attach_replaces_handle_witness :
  proc_handle attached = Some 1234
  /\ let r := attach_to_pid 4321 (attached, world_open_denied) in
     outcome_of r = Raise args_KeyError
     /\ trace_of r =
          [(CloseHandle (Some 1234), reply 1);
           (OpenProcess ACCESS_MASK 0 4321, reply 0);
           (GetLastError, reply 5)]
     /\ In (mkLog logger ERROR
              (Fmt "Failed to open process {} (Error code: {})" [Int 4321; Int 5]))
           (log_of r).
Proof.
  split; [reflexivity|].
  exact (proj2 (attach_replaces_handle attached world_open_denied 1234 4321
           (Scripted.mk [reply 0; reply 5] []) (reply 1)
           (Scripted.mk [reply 5] []) (reply 0)
           (Scripted.mk [] []) (reply 5)
           eq_refl ltac:(discriminate) eq_refl eq_refl eq_refl) ltac:(discriminate)).
Defined.

(** ** Remote memory: [write_to_memory], [allocate_remote_buffer], [release_remote_buffer] *)

Section RemoteMemory.
Context {OS : Type} `{Kernel32 OS}.
Implicit Types (inj : DLLInjector) (w : World OS).

Lemma write_to_memory_ok inj w address payload s r :
  k32 (os w) (WriteProcessMemory (proc_handle inj) address payload (len payload)) = (s, r) ->
  ret r <> 0 ->
  exists lg,
    write_to_memory address payload (inj, w) =
      (Return tt,
       (inj, mkWorld s
               (trace w ++
                [(WriteProcessMemory (proc_handle inj) address payload (len payload), r)])
               lg)).
Proof.
  intros Hk Hr. apply falsy_false in Hr.
  unfold write_to_memory. py_unfold. cbn. rewrite Hk. cbn. rewrite Hr. cbn.
  eexists. reflexivity.
Qed.

Lemma write_to_memory_failed inj w address payload s r s' code :
  k32 (os w) (WriteProcessMemory (proc_handle inj) address payload (len payload)) = (s, r) ->
  ret r = 0 ->
  k32 s GetLastError = (s', code) ->
  exists lg,
    write_to_memory address payload (inj, w) =
      (Raise args_KeyError,
       (inj, mkWorld s'
               (trace w ++
                [(WriteProcessMemory (proc_handle inj) address payload (len payload), r);
                 (GetLastError, code)])
               lg)).
Proof.
  intros Hk Hr Hc. apply falsy_true in Hr.
  unfold write_to_memory. py_unfold. cbn. rewrite Hk. cbn. rewrite Hr. cbn.
  rewrite Hc. cbn. rewrite <- app_assoc. eexists. reflexivity.
Qed.

Lemma allocate_remote_buffer_failed inj w data length s a s' code :
  k32 (os w) (VirtualAllocEx (proc_handle inj) (c_int length) MEM_FLAGS RWX_PERMISSIONS)
    = (s, a) ->
  ret a = 0 ->
  k32 s GetLastError = (s', code) ->
  exists lg,
    allocate_remote_buffer data length (inj, w) =
      (Raise args_KeyError,
       (inj, mkWorld s'
               (trace w ++
                [(VirtualAllocEx (proc_handle inj) (c_int length) MEM_FLAGS RWX_PERMISSIONS, a);
                 (GetLastError, code)])
               lg)).
Proof.
  intros Hk Hr Hc. apply falsy_true in Hr.
  unfold allocate_remote_buffer. py_unfold. cbn. rewrite Hk. cbn. rewrite Hr. cbn.
  rewrite Hc. cbn. rewrite <- app_assoc. eexists. reflexivity.
Qed.

Lemma allocate_remote_buffer_write_failed inj w data length s1 a s2 wr s3 code :
  k32 (os w) (VirtualAllocEx (proc_handle inj) (c_int length) MEM_FLAGS RWX_PERMISSIONS)
    = (s1, a) ->
  ret a <> 0 ->
  k32 s1 (WriteProcessMemory (proc_handle inj) (ret a) data (len data)) = (s2, wr) ->
  ret wr = 0 ->
  k32 s2 GetLastError = (s3, code) ->
  exists lg,
    allocate_remote_buffer data length (inj, w) =
      (Raise args_KeyError,
       (inj, mkWorld s3
               (trace w ++
                [(VirtualAllocEx (proc_handle inj) (c_int length) MEM_FLAGS RWX_PERMISSIONS, a);
                 (WriteProcessMemory (proc_handle inj) (ret a) data (len data), wr);
                 (GetLastError, code)])
               lg)).
Proof.
  intros Hk Hr Hw Hwr Hc. apply falsy_false in Hr.
  unfold allocate_remote_buffer. py_unfold. cbn. rewrite Hk. cbn. rewrite Hr. cbn.
  match goal with |- context [write_to_memory _ _ (inj, ?w')] => set (w1 := w') end.
  destruct (write_to_memory_failed inj w1 (ret a) data s2 wr s3 code Hw Hwr Hc)
    as [lg Hrun].
  rewrite Hrun. cbn. rewrite <- app_assoc. eexists. reflexivity.
Qed.

Lemma allocate_remote_buffer_ok inj w data length s1 a s2 wr :
  k32 (os w) (VirtualAllocEx (proc_handle inj) (c_int length) MEM_FLAGS RWX_PERMISSIONS)
    = (s1, a) ->
  ret a <> 0 ->
  k32 s1 (WriteProcessMemory (proc_handle inj) (ret a) data (len data)) = (s2, wr) ->
  ret wr <> 0 ->
  exists lg,
    allocate_remote_buffer data length (inj, w) =
      (Return (ret a),
       (inj, mkWorld s2
               (trace w ++
                [(VirtualAllocEx (proc_handle inj) (c_int length) MEM_FLAGS RWX_PERMISSIONS, a);
                 (WriteProcessMemory (proc_handle inj) (ret a) data (len data), wr)])
               lg)).
Proof.
  intros Hk Hr Hw Hwr. apply falsy_false in Hr.
  unfold allocate_remote_buffer. py_unfold. cbn. rewrite Hk. cbn. rewrite Hr. cbn.
  match goal with |- context [write_to_memory _ _ (inj, ?w')] => set (w1 := w') end.
  destruct (write_to_memory_ok inj w1 (ret a) data s2 wr Hw Hwr) as [lg Hrun].
  rewrite Hrun. cbn. rewrite <- app_assoc. eexists. reflexivity.
Qed.

(** What a returning [allocate_remote_buffer] went through. *)
Lemma allocate_remote_buffer_returned inj w data length addr st :
  allocate_remote_buffer data length (inj, w) = (Return addr, st) ->
  exists s1 a s2 wr lg,
    k32 (os w) (VirtualAllocEx (proc_handle inj) (c_int length) MEM_FLAGS RWX_PERMISSIONS)
      = (s1, a)
    /\ ret a <> 0 /\ addr = ret a
    /\ k32 s1 (WriteProcessMemory (proc_handle inj) (ret a) data (len data)) = (s2, wr)
    /\ ret wr <> 0
    /\ st = (inj, mkWorld s2
                    (trace w ++
                     [(VirtualAllocEx (proc_handle inj) (c_int length) MEM_FLAGS
                         RWX_PERMISSIONS, a);
                      (WriteProcessMemory (proc_handle inj) (ret a) data (len data), wr)])
                    lg).
Proof.
  intros Hrun.
  destruct (k32 (os w)
              (VirtualAllocEx (proc_handle inj) (c_int length) MEM_FLAGS RWX_PERMISSIONS))
    as [s1 a] eqn:Hk.
  destruct (Z.eq_dec (ret a) 0) as [Ha|Ha].
  { destruct (k32 s1 GetLastError) as [s' code] eqn:Hc.
    destruct (allocate_remote_buffer_failed inj w data length s1 a s' code Hk Ha Hc)
      as [lg E]. rewrite E in Hrun. discriminate. }
  destruct (k32 s1 (WriteProcessMemory (proc_handle inj) (ret a) data (len data)))
    as [s2 wr] eqn:Hw.
  destruct (Z.eq_dec (ret wr) 0) as [Hwr|Hwr].
  { destruct (k32 s2 GetLastError) as [s' code] eqn:Hc.
    destruct (allocate_remote_buffer_write_failed inj w data length
                s1 a s2 wr s' code Hk Ha Hw Hwr Hc) as [lg E].
    rewrite E in Hrun. discriminate. }
  destruct (allocate_remote_buffer_ok inj w data length s1 a s2 wr Hk Ha Hw Hwr)
    as [lg E].
  rewrite E in Hrun. inversion Hrun; subst.
  exists s1, a, s2, wr, lg. repeat split; auto.
Qed.

Lemma release_remote_buffer_ok inj w addr length s r :
  k32 (os w) (VirtualFreeEx (proc_handle inj) addr 0 FREE_MEM) = (s, r) ->
  ret r <> 0 ->
  exists lg,
    release_remote_buffer addr length (inj, w) =
      (Return tt,
       (inj, mkWorld s
               (trace w ++ [(VirtualFreeEx (proc_handle inj) addr 0 FREE_MEM, r)]) lg)).
Proof.
  intros Hk Hr. apply falsy_false in Hr.
  unfold release_remote_buffer. py_unfold. cbn. change (c_int 0) with 0.
  rewrite Hk. cbn. rewrite Hr. cbn. eexists. reflexivity.
Qed.

Lemma release_remote_buffer_failed inj w addr length s r s' code :
  k32 (os w) (VirtualFreeEx (proc_handle inj) addr 0 FREE_MEM) = (s, r) ->
  ret r = 0 ->
  k32 s GetLastError = (s', code) ->
  exists lg,
    release_remote_buffer addr length (inj, w) =
      (Raise args_KeyError,
       (inj, mkWorld s'
               (trace w ++
                [(VirtualFreeEx (proc_handle inj) addr 0 FREE_MEM, r);
                 (GetLastError, code)])
               lg)).
Proof.
  intros Hk Hr Hc. apply falsy_true in Hr.
  unfold release_remote_buffer. py_unfold. cbn. change (c_int 0) with 0.
  rewrite Hk. cbn. rewrite Hr. cbn. rewrite Hc. cbn. rewrite <- app_assoc.
  eexists. reflexivity.
Qed.

(** C10. [release_remote_buffer] does not depend on its [length]
    argument.  Two runs from the same state with the same address and any
    two lengths make the same call, [VirtualFreeEx] with size 0 and
    MEM_RELEASE (0x8000), and end with the same outcome (the same return
    or the same exception), the same injector, the same operating-system
    state and the same trace.  The length appears only in the first debug
    record of the log; the records after it are the same. *)
Theorem release_ignores_length inj w addr length1 length2 :
  let r1 := release_remote_buffer addr length1 (inj, w) in
  let r2 := release_remote_buffer addr length2 (inj, w) in
  outcome_of r1 = outcome_of r2
  /\ self_of r1 = self_of r2
  /\ os_of r1 = os_of r2
  /\ trace_of r1 = trace_of r2
  /\ (exists freed tail,
        trace_of r1 =
          trace w ++ (VirtualFreeEx (proc_handle inj) addr 0 0x8000, freed) :: tail)
  /\ exists rest,
       log_of r1 =
         log w ++
         mkLog logger DEBUG
           (Fmt "Releasing remote buffer at 0x{:08x} ({} bytes)" [Int addr; Int length1])
         :: rest
       /\ log_of r2 =
            log w ++
            mkLog logger DEBUG
              (Fmt "Releasing remote buffer at 0x{:08x} ({} bytes)" [Int addr; Int length2])
            :: rest.
Proof.
  unfold release_remote_buffer. py_unfold. cbn.
  change (c_int 0) with 0. change FREE_MEM with 0x8000.
  destruct (k32 (os w) (VirtualFreeEx (proc_handle inj) addr 0 0x8000)) as [s freed].
  cbn. destruct (falsy (ret freed)); cbn.
  - destruct (k32 s GetLastError) as [s' code]. cbn.
    rewrite <- !app_assoc. cbn. repeat split; try reflexivity.
    + eexists _, _. reflexivity.
    + eexists. split; reflexivity.
  - rewrite <- !app_assoc. cbn. repeat split; try reflexivity.
    + eexists _, _. reflexivity.
    + eexists. split; reflexivity.
Qed.
End RemoteMemory.

(** ** [read_memory_region] and the round trip through the memory model *)

Lemma c_int_small (x : Z) : - 2 ^ 31 <= x < 2 ^ 31 -> c_int x = x.
Proof.
  intros Hx. unfold c_int. rewrite Z.mod_small by lia. lia.
Qed.

(** [WAIT_FAILED] is the unsigned 0xFFFFFFFF.  A result that reaches Python
    as a C [int], the result type ctypes assumes when none is declared, is
    never equal to it: the comparison of [run_remote_function] can only
    succeed on a reply outside that range. *)
Remark c_int_is_not_wait_failed (z : Z) : (c_int z =? 0xFFFFFFFF) = false.
Proof.
  apply Z.eqb_neq. unfold c_int.
  pose proof (Z.mod_pos_bound (z + 2 ^ 31) (2 ^ 32) ltac:(lia)). lia.
Qed.

Section ReadMemory.
Context {OS : Type} `{Kernel32 OS}.
Implicit Types (inj : DLLInjector) (w : World OS).

Lemma read_memory_region_ok inj w address length s r :
  0 <= length ->
  k32 (os w) (ReadProcessMemory (proc_handle inj) (c_long address) length) = (s, r) ->
  ret r <> 0 ->
  exists lg,
    read_memory_region address length (inj, w) =
      (Return (take (Z.to_nat length) (out_raw r ++ replicate (Z.to_nat length) x00)),
       (inj, mkWorld s
               (trace w ++
                [(ReadProcessMemory (proc_handle inj) (c_long address) length, r)])
               lg)).
Proof.
  intros Hlen Hk Hr. apply falsy_false in Hr. apply Z.ltb_ge in Hlen.
  unfold read_memory_region. py_unfold. cbn. rewrite Hlen. cbn.
  rewrite Hk. cbn. rewrite Hr. cbn. eexists. reflexivity.
Qed.
End ReadMemory.

Module RemoteFacts.
Import Remote.

Lemma store_below (bs : bytes) : forall (m : gmap Z byte) (a a' : Z),
  a' < a -> store m a bs !! a' = m !! a'.
Proof.
  induction bs as [|b rest IH]; intros m a a' Hlt; cbn.
  - reflexivity.
  - rewrite IH by lia. apply lookup_insert_ne. lia.
Qed.

Lemma load_store (bs : bytes) : forall (m : gmap Z byte) (a : Z),
  load (store m a bs) a (length bs) = bs.
Proof.
  induction bs as [|b rest IH]; intros m a; cbn.
  - reflexivity.
  - rewrite store_below by lia. rewrite lookup_insert_eq. cbn.
    now rewrite IH.
Qed.

(** A successful allocation hands out an address that a C [int] holds. *)
Lemma alloc_in_range (s s1 : t) (h : option Z) (size flags protect : Z) (a : Reply) :
  step s (VirtualAllocEx h size flags protect) = (s1, a) ->
  ret a <> 0 ->
  0 < ret a < 2 ^ 31 /\ valid s1 h = true.
Proof.
  cbn. destruct (valid s h) eqn:Hv; cbn.
  - destruct (_ && _) eqn:Hc; cbn.
    + intros E _. inversion E; subst; clear E. cbn.
      repeat (apply andb_prop in Hc; destruct Hc as [Hc ?]).
      split; [lia|]. exact Hv.
    + intros E Hr. inversion E; subst. cbn in Hr. contradiction.
  - intros E Hr. inversion E; subst. cbn in Hr. contradiction.
Qed.

(** A successful write leaves the payload in memory, inside a region. *)
Lemma write_stored (s1 s2 : t) (h : option Z) (addr : Z) (payload : bytes) (wr : Reply) :
  step s1 (WriteProcessMemory h addr payload (len payload)) = (s2, wr) ->
  ret wr <> 0 ->
  valid s2 h = true
  /\ inside s2 addr (len payload) = true
  /\ memory s2 = store (memory s1) addr payload.
Proof.
  cbn. destruct (valid s1 h) eqn:Hv; cbn.
  - destruct (_ && _) eqn:Hc; cbn.
    + intros E _. inversion E; subst; clear E. cbn.
      apply andb_prop in Hc. destruct Hc as [_ Hin].
      unfold len. rewrite Nat2Z.id, firstn_all.
      split; [exact Hv|]. split; [exact Hin|]. reflexivity.
    + intros E Hr. inversion E; subst. cbn in Hr. contradiction.
  - intros E Hr. inversion E; subst. cbn in Hr. contradiction.
Qed.

Lemma read_loaded (s : t) (h : option Z) (addr n : Z) :
  valid s h = true -> 0 <= n -> inside s addr n = true ->
  step s (ReadProcessMemory h addr n) = (s, mkReply 1 0 (load (memory s) addr (Z.to_nat n))).
Proof.
  intros Hv Hn Hin. cbn. rewrite Hv. cbn.
  apply Z.leb_le in Hn. rewrite Hn, Hin. reflexivity.
Qed.
End RemoteFacts.

(** In the memory model every non-empty buffer that fits below the 2 GiB
    line is allocated and written, at the next free base. *)
Lemma remote_allocate_succeeds (inj : DLLInjector) (w : World Remote.t) (b : bytes) :
  Remote.valid (os w) (proc_handle inj) = true ->
  b <> [] ->
  0 < Remote.next_base (os w) ->
  Remote.next_base (os w) + len b <= 2 ^ 31 ->
  exists st,
    allocate_remote_buffer b (len b) (inj, w) = (Return (Remote.next_base (os w)), st).
Proof.
  intros Hv Hb Hbase Hfit.
  assert (Hpos : 0 < len b).
  { unfold len. destruct b; [contradiction|]. cbn. lia. }
  assert (Hlen : c_int (len b) = len b) by (apply c_int_small; lia).
  set (s := os w) in *.
  set (s1 := Remote.mk (Remote.running s) (Remote.handles s) (Remote.next_handle s)
               ((Remote.next_base s, len b) :: Remote.regions s) (Remote.memory s)
               (Remote.next_base s + len b) (Remote.last_error s)).
  assert (Hk : k32 (os w)
                 (VirtualAllocEx (proc_handle inj) (c_int (len b)) MEM_FLAGS RWX_PERMISSIONS)
               = (s1, reply (Remote.next_base s))).
  { assert (E1 : (0 <? len b) = true) by (apply Z.ltb_lt; lia).
    assert (E2 : (0 <? Remote.next_base s) = true) by (apply Z.ltb_lt; lia).
    assert (E3 : (Remote.next_base s + len b <=? 2 ^ 31) = true) by (apply Z.leb_le; lia).
    rewrite Hlen. cbn. fold s. rewrite Hv. cbn. rewrite E1, E2, E3. reflexivity. }
  assert (Hw : exists s2,
             k32 s1 (WriteProcessMemory (proc_handle inj) (ret (reply (Remote.next_base s)))
                       b (len b)) = (s2, reply 1)).
  { assert (E1 : (0 <=? len b) = true) by (apply Z.leb_le; lia).
    assert (Hv1 : Remote.valid s1 (proc_handle inj) = true) by exact Hv.
    cbn. rewrite Hv1. cbn. unfold Remote.inside. cbn.
    rewrite E1, !Z.leb_refl. cbn. eexists. reflexivity. }
  destruct Hw as [s2 Hw].
  destruct (allocate_remote_buffer_ok inj w b (len b) s1 _ s2 _ Hk
              ltac:(cbn; lia) Hw ltac:(discriminate)) as [lg Hrun].
  eexists. exact Hrun.
Qed.

(** C7. Over the memory model, a buffer that [allocate_remote_buffer] wrote
    is read back unchanged: whenever [allocate_remote_buffer b length]
    returns an address, [read_memory_region] at that address with length
    [len b], run next, returns exactly [b]. *)
Theorem write_read_roundtrip (inj : DLLInjector) (w : World Remote.t)
    (b : bytes) (length : Z) (addr : Z) (st : State Remote.t) :
  allocate_remote_buffer b length (inj, w) = (Return addr, st) ->
  outcome_of (read_memory_region addr (len b) st) = Return b.
Proof.
  intros Hrun.
  destruct (allocate_remote_buffer_returned inj w b length addr st Hrun)
    as (s1 & a & s2 & wr & lg & Hk & Ha & -> & Hw & Hwr & ->).
  destruct (RemoteFacts.alloc_in_range _ _ _ _ _ _ _ Hk Ha) as [Hrange _].
  destruct (RemoteFacts.write_stored _ _ _ _ _ _ Hw Hwr) as (Hv & Hin & Hmem).
  assert (Hlen : 0 <= len b) by (unfold len; lia).
  assert (Haddr : c_long (ret a) = ret a) by (apply c_int_small; lia).
  match goal with |- context [read_memory_region _ _ (inj, ?w')] => set (w2 := w') end.
  assert (Hr : k32 (os w2) (ReadProcessMemory (proc_handle inj) (c_long (ret a)) (len b))
               = (s2, mkReply 1 0 (Remote.load (Remote.memory s2) (ret a) (Z.to_nat (len b))))).
  { rewrite Haddr. now apply RemoteFacts.read_loaded. }
  destruct (read_memory_region_ok inj w2 (ret a) (len b) _ _ Hlen Hr ltac:(discriminate))
    as [lg2 Hread].
  rewrite Hread. unfold outcome_of. cbn. f_equal.
  rewrite Hmem. unfold len. rewrite Nat2Z.id, RemoteFacts.load_store.
  now rewrite take_app_length.
Qed.

Lemma write_read_roundtrip_witness :
  allocate_remote_buffer roundtrip_payload (len roundtrip_payload) remote_state
    = (Return 0x10000000, roundtrip_written)
  /\ outcome_of (read_memory_region 0x10000000 (len roundtrip_payload) roundtrip_written)
     = Return roundtrip_payload.
Proof.
  assert (Hrun : allocate_remote_buffer roundtrip_payload (len roundtrip_payload) remote_state
                 = (Return 0x10000000, roundtrip_written)) by (vm_compute; reflexivity).
  split; [exact Hrun|].
  exact (write_read_roundtrip _ _ _ _ _ _ Hrun).
Defined.

(** ** [run_remote_function] *)

Section RunRemote.
Context {OS : Type} `{Kernel32 OS}.
Implicit Types (inj : DLLInjector) (w : World OS).

(** Every run of [run_remote_function] only adds calls to the trace. *)
Lemma run_remote_function_trace_extends inj w addr arg_data :
  exists evs, trace_of (run_remote_function addr arg_data (inj, w)) = trace w ++ evs.
Proof.
  unfold run_remote_function, allocate_remote_buffer, write_to_memory,
    release_remote_buffer.
  py_unfold. cbn.
  repeat py_case_goal; rewrite <- ?app_assoc; eexists; reflexivity.
Qed.

(** C2, amended.  Once [CreateRemoteThread] has returned a thread handle,
    [run_remote_function] waits on that thread without a time limit and,
    on the success path and on every failure path after it (the wait
    fails, the exit code cannot be read), releases the argument buffer
    with [VirtualFreeEx] before it is left; but it makes no [CloseHandle]
    call at all, so the thread handle is not closed.  The calls of such a
    run begin with the allocation, the write, the thread creation and the
    wait, in this order. *)
Theorem run_remote_function_thread_not_closed
    inj w addr arg_data evs h start param thread :
  trace_of (run_remote_function addr arg_data (inj, w)) = trace w ++ evs ->
  In (CreateRemoteThread h start param, thread) evs ->
  ret thread <> 0 ->
  exists a wrt wr rest fr,
    evs =
      (VirtualAllocEx (proc_handle inj) (c_int (len arg_data)) MEM_FLAGS RWX_PERMISSIONS, a)
      :: (WriteProcessMemory (proc_handle inj) (ret a) arg_data (len arg_data), wrt)
      :: (CreateRemoteThread (proc_handle inj) (c_long addr) (c_long (ret a)), thread)
      :: (WaitForSingleObject (ret thread) 0xFFFFFFFF, wr)
      :: rest
    /\ In (VirtualFreeEx (proc_handle inj) (ret a) 0 FREE_MEM, fr) rest
    /\ forall x rp, ~ In (CloseHandle x, rp) evs.
Proof.
  intros Htr Hin Hnz.
  unfold run_remote_function, allocate_remote_buffer, write_to_memory,
    release_remote_buffer in Htr.
  py_unfold. cbn in Htr. change (c_int 0) with 0 in Htr.
  repeat py_case Htr;
    rewrite <- ?app_assoc in Htr; cbn in Htr;
    apply app_inv_head in Htr; subst evs;
    cbn in Hin;
    repeat match goal with
           | Hor : _ \/ _ |- _ => destruct Hor as [Hor|Hor]
           | Hf : False |- _ => destruct Hf
           | E : (_, _) = (_, _) |- _ =>
               first [discriminate E | inversion E; subst; clear E]
           end;
    try match goal with
        | E : falsy (ret ?t) = true, N : ret ?t <> 0 |- _ =>
            apply falsy_true in E; contradiction
        end;
    (eexists _, _, _, _, _; split; [reflexivity|]; split; [in_list|];
     intros x rp Hc; cbn in Hc; intuition discriminate).
Qed.
End RunRemote.

Lemma run_remote_function_thread_not_closed_witness :
  let r := run_remote_function 0x77001000 payload (attached, world_run_no_exit_code) in
  In (CreateRemoteThread (Some 1234) 0x77001000 0x10000000, reply 5678) (trace_of r)
  /\ exists a wrt wr rest fr,
       trace_of r =
         (VirtualAllocEx (Some 1234) 5 MEM_FLAGS RWX_PERMISSIONS, a)
         :: (WriteProcessMemory (Some 1234) (ret a) payload 5, wrt)
         :: (CreateRemoteThread (Some 1234) 0x77001000 (c_long (ret a)), reply 5678)
         :: (WaitForSingleObject 5678 0xFFFFFFFF, wr)
         :: rest
       /\ In (VirtualFreeEx (Some 1234) (ret a) 0 FREE_MEM, fr) rest
       /\ forall x rp, ~ In (CloseHandle x, rp) (trace_of r).
Proof.
  cbv zeta.
  set (r := run_remote_function 0x77001000 payload (attached, world_run_no_exit_code)).
  assert (Htr : trace_of r = trace world_run_no_exit_code ++ trace_of r) by reflexivity.
  assert (Hin : In (CreateRemoteThread (Some 1234) 0x77001000 0x10000000, reply 5678)
                  (trace_of r)) by (vm_compute; auto).
  split; [exact Hin|].
  exact (run_remote_function_thread_not_closed attached world_run_no_exit_code
           0x77001000 payload (trace_of r)
           (Some 1234) 0x77001000 0x10000000 (reply 5678)
           Htr Hin ltac:(discriminate)).
Defined.

(** C2, as stated, fails.  In a run where every call succeeds the thread
    is created with handle 5678 and the exit code 42 is returned, and a
    run where [GetExitCodeThread] fails is left by an exception (the
    [KeyError] of the decorator, in place of the [DLLInjectionError] of
    the body); in neither is [CloseHandle] called on 5678 before the
    method is left. *)
Lemma run_remote_function_leaves_thread_open :
  (let r := run_remote_function 0x77001000 payload (attached, world_run_ok) in
   outcome_of r = Return 42
   /\ In (CreateRemoteThread (Some 1234) 0x77001000 0x10000000, reply 5678) (trace_of r)
   /\ forall rp, ~ In (CloseHandle (Some 5678), rp) (trace_of r))
  /\ (let r := run_remote_function 0x77001000 payload (attached, world_run_no_exit_code) in
      outcome_of r = Raise args_KeyError
      /\ In (CreateRemoteThread (Some 1234) 0x77001000 0x10000000, reply 5678) (trace_of r)
      /\ forall rp, ~ In (CloseHandle (Some 5678), rp) (trace_of r)).
Proof.
  split; cbv zeta; (split; [vm_compute; reflexivity|]);
    (split; [vm_compute; tauto|]);
    intros rp Hin; vm_compute in Hin; intuition discriminate.
Qed.

(** C1 at the failing input.  The buffer is allocated at 0x10000000 and
    the write into it fails: [allocate_remote_buffer] is left by an
    exception after three calls, none of them [VirtualFreeEx], and
    [run_remote_function], whose [finally] block releases the buffer, is
    left by the same exception before its [try] is entered, with the same
    three calls.  The region stays allocated.  The exception is not the
    [DLLInjectionError] that [write_to_memory] raises in its body either:
    the decorator's logging call puts its [KeyError] in its place. *)
Theorem allocate_remote_buffer_leaks_on_write_failure :
  let r := allocate_remote_buffer payload (len payload) (attached, world_write_fails) in
  let r' := run_remote_function 0x77001000 payload (attached, world_write_fails) in
  outcome_of r = Raise args_KeyError
  /\ trace_of r =
       [(VirtualAllocEx (Some 1234) 5 MEM_FLAGS RWX_PERMISSIONS, reply 0x10000000);
        (WriteProcessMemory (Some 1234) 0x10000000 payload 5, reply 0);
        (GetLastError, reply 5)]
  /\ (forall h a s t rp, ~ In (VirtualFreeEx h a s t, rp) (trace_of r))
  /\ outcome_of r' = outcome_of r
  /\ trace_of r' = trace_of r.
Proof.
  cbv zeta. repeat split; try (vm_compute; reflexivity).
  intros h a s t rp Hin. vm_compute in Hin. intuition discriminate.
Qed.

(** ** [inject_shared_library] *)

Lemma encode_ascii_None (s : str) :
  (exists cp, In cp s /\ is_ascii cp = false) -> encode_ascii s = None.
Proof.
  induction s as [|c rest IH]; intros (cp & Hin & Hcp); cbn in *.
  - contradiction.
  - destruct (is_ascii c) eqn:Hc; [|reflexivity].
    destruct Hin as [->|Hin]; [congruence|].
    rewrite IH by eauto. now destruct (Byte.of_N c).
Qed.

(** The strict codec has no other way to fail, and what it returns is the
    string byte for byte. *)
Lemma encode_ascii_Some (s : str) (b : bytes) :
  encode_ascii s = Some b -> map Byte.to_N b = s /\ Forall (fun cp => is_ascii cp = true) s.
Proof.
  revert b. induction s as [|c rest IH]; intros b; cbn.
  - intros [= <-]. split; constructor.
  - destruct (is_ascii c) eqn:Hc; [|discriminate].
    destruct (Byte.of_N c) as [x|] eqn:Hx; [|discriminate].
    destruct (encode_ascii rest) as [bs|]; [|discriminate].
    intros [= <-]. destruct (IH bs eq_refl) as [Hm Hf]. cbn.
    apply Byte.to_of_N in Hx. rewrite Hx, Hm. split; [reflexivity|].
    constructor; assumption.
Qed.

Section Inject.
Context {OS : Type} `{Kernel32 OS}.
Implicit Types (inj : DLLInjector) (w : World OS).

(** C6. For a path that does not exist, [inject_shared_library] fails at
    once: no kernel32 call is made (the trace is the one it started with),
    and the operating system and the injector are in the state they were
    in.  The body raises [FileNotFoundError], after the two records that
    say so; the caller does not get it, but the [KeyError] of the
    decorator's logging call, which adds no record of its own. *)
Theorem inject_missing_file inj w dll_path :
  path_exists (os w) dll_path = false ->
  inject_shared_library_body dll_path (inj, w) =
    (Raise (mkExn FileNotFoundError (Fmt "DLL file not found: {}" [Str dll_path])),
     (inj,
      mkWorld (os w) (trace w)
        (log w ++
         [mkLog logger ERROR (Fmt "DLL file not found: {}" [Str dll_path]);
          mkLog security_logger ERROR
            (Fmt "Injection failed - DLL not found: {}" [Str dll_path])])))
  /\ inject_shared_library dll_path (inj, w) =
       (Raise args_KeyError,
        (inj,
         mkWorld (os w) (trace w)
           (log w ++
            [mkLog logger ERROR (Fmt "DLL file not found: {}" [Str dll_path]);
             mkLog security_logger ERROR
               (Fmt "Injection failed - DLL not found: {}" [Str dll_path])]))).
Proof.
  intros Hp. unfold inject_shared_library, inject_shared_library_body. py_unfold. cbn.
  rewrite Hp. cbn. rewrite <- !app_assoc. split; reflexivity.
Qed.

(** C3, amended.  For a path of an existing file that has a character
    outside ASCII, [inject_shared_library] fails at once, before any
    kernel32 call and with nothing encoded, and not with a
    [DLLInjectionError].  In the body the strict codec raises
    [UnicodeEncodeError], and the [except] block passes it on as it is, so
    that is what the body is left with; the exception that leaves the
    decorated method is not a [DLLInjectionError] either. *)
Theorem inject_non_ascii_path inj w dll_path :
  path_exists (os w) dll_path = true ->
  (exists cp, In cp dll_path /\ is_ascii cp = false) ->
  (exists e lg,
     inject_shared_library_body dll_path (inj, w) =
       (Raise e, (inj, mkWorld (os w) (trace w) lg))
     /\ kind e = UnicodeEncodeError)
  /\ (exists e lg,
        inject_shared_library dll_path (inj, w) =
          (Raise e, (inj, mkWorld (os w) (trace w) lg))
        /\ kind e <> DLLInjectionError).
Proof.
  intros Hp Hbad. apply encode_ascii_None in Hbad.
  unfold inject_shared_library, inject_shared_library_body, encode. py_unfold. cbn.
  rewrite Hp. cbn.
  rewrite Hbad. destruct (default (0, 0) (first_bad_run dll_path 0)) as [i j]. cbn.
  split; eexists _, _; (split; [reflexivity|]); [reflexivity | discriminate].
Qed.
End Inject.

Lemma inject_missing_file_witness :
  path_exists (os world_files) missing_path = false
  /\ inject_shared_library missing_path (attached, world_files) =
       (Raise args_KeyError,
        (attached,
         mkWorld (os world_files) []
           [mkLog logger ERROR (Fmt "DLL file not found: {}" [Str missing_path]);
            mkLog security_logger ERROR
              (Fmt "Injection failed - DLL not found: {}" [Str missing_path])])).
Proof.
  split; [reflexivity|].
  exact (proj2 (inject_missing_file attached world_files missing_path eq_refl)).
Defined.

Lemma inject_non_ascii_path_witness :
  path_exists (os world_files) non_ascii_path = true
  /\ (exists e lg,
        inject_shared_library_body non_ascii_path (attached, world_files) =
          (Raise e, (attached, mkWorld (os world_files) [] lg))
        /\ kind e = UnicodeEncodeError)
  /\ (exists e lg,
        inject_shared_library non_ascii_path (attached, world_files) =
          (Raise e, (attached, mkWorld (os world_files) [] lg))
        /\ kind e <> DLLInjectionError).
Proof.
  split; [reflexivity|].
  assert (Hbad : exists cp, In cp non_ascii_path /\ is_ascii cp = false).
  { exists 0xE9%N. split; [right; left; reflexivity | reflexivity]. }
  exact (inject_non_ascii_path attached world_files non_ascii_path eq_refl Hbad).
Defined.

(** C3, as stated, fails.  The file exists and its path has U+00E9 in it;
    the exception that leaves [inject_shared_library] is not a
    [DLLInjectionError]: it is the [KeyError] of the decorator's logging
    call, and the body was left with the [UnicodeEncodeError] of the
    codec. *)
Lemma inject_non_ascii_path_not_injection_error :
  path_exists (os world_files) non_ascii_path = true
  /\ In 0xE9%N non_ascii_path
  /\ is_ascii 0xE9 = false
  /\ outcome_of (inject_shared_library non_ascii_path (attached, world_files)) =
       Raise args_KeyError
  /\ kind args_KeyError <> DLLInjectionError
  /\ outcome_of (inject_shared_library_body non_ascii_path (attached, world_files)) =
       Raise (mkExn UnicodeEncodeError
                (Fmt "'ascii' codec can't encode character {} in position {}: ordinal not in range(128)"
                   [Str [0xE9%N]; Int 1])).
Proof.
  split; [reflexivity|]. split; [right; left; reflexivity|]. split; [reflexivity|].
  split; [vm_compute; reflexivity|]. split; [discriminate|].
  vm_compute. reflexivity.
Qed.

(** ** [resolve_func_offset] *)

Section Resolve.
Context {OS : Type} `{Kernel32 OS}.
Implicit Types (inj : DLLInjector) (w : World OS).

(** The library does not load: there is nothing to unload. *)
Lemma resolve_func_offset_not_loaded inj w module_path func_name s1 base s2 code :
  k32 (os w) (LoadLibraryA module_path) = (s1, base) -> ret base = 0 ->
  k32 s1 GetLastError = (s2, code) ->
  let r := resolve_func_offset module_path func_name (inj, w) in
  outcome_of r =
    Raise args_KeyError
  /\ trace_of r = trace w ++ [(LoadLibraryA module_path, base); (GetLastError, code)].
Proof.
  intros Hk Hz Hc r. apply falsy_true in Hz.
  subst r. unfold resolve_func_offset. py_unfold. cbn.
  rewrite Hk. cbn. rewrite Hz. cbn. rewrite Hc. cbn.
  rewrite <- !app_assoc. split; reflexivity.
Qed.

(** The symbol name is not ASCII: the codec raises inside the [try], and
    the library is unloaded all the same. *)
Lemma resolve_func_offset_bad_name inj w module_path func_name s1 base :
  k32 (os w) (LoadLibraryA module_path) = (s1, base) -> ret base <> 0 ->
  encode_ascii func_name = None ->
  let r := resolve_func_offset module_path func_name (inj, w) in
  let freed := k32 s1 (FreeLibrary (ret base)) in
  outcome_of r = Raise args_KeyError
  /\ trace_of r =
       trace w
       ++ (LoadLibraryA module_path, base)
          :: (FreeLibrary (ret base), snd freed)
          :: (if ret (snd freed) =? 0
              then [(GetLastError, snd (k32 (fst freed) GetLastError))] else []).
Proof.
  intros Hk Hnz Henc r. apply falsy_false in Hnz.
  subst r. unfold resolve_func_offset, encode. py_unfold. cbn.
  rewrite Hk. cbn. rewrite Hnz. cbn. rewrite Henc.
  destruct (default (0, 0) (first_bad_run func_name 0)) as [i j]. cbn.
  destruct (k32 s1 (FreeLibrary (ret base))) as [s2 freed] eqn:Hf. cbn.
  unfold falsy. destruct (ret freed =? 0); cbn.
  - destruct (k32 s2 GetLastError) as [s3 code]. cbn.
    rewrite <- !app_assoc. split; reflexivity.
  - rewrite <- !app_assoc. split; reflexivity.
Qed.
End Resolve.


(** ** What the working methods leave alone *)

Section Framed.
Context {OS : Type} `{Kernel32 OS}.
Variable allowed : Call -> bool.
Implicit Types (inj : DLLInjector) (w : World OS).

Lemma framed_pure {A} inj (a : A) : framed allowed inj (pure (OS:=OS) a).
Proof.
  intros w. split; [reflexivity|]. exists [], []. cbn.
  rewrite !app_nil_r. auto.
Qed.

Lemma framed_raise {A} inj k m : framed allowed inj (raise (OS:=OS) (A:=A) k m).
Proof.
  intros w. split; [reflexivity|]. exists [], []. cbn.
  rewrite !app_nil_r. auto.
Qed.

Lemma framed_reraise {A} inj e : framed allowed inj (reraise (OS:=OS) (A:=A) e).
Proof.
  intros w. split; [reflexivity|]. exists [], []. cbn.
  rewrite !app_nil_r. auto.
Qed.

Lemma framed_emit inj to lvl m : framed allowed inj (emit (OS:=OS) to lvl m).
Proof.
  intros w. split; [reflexivity|]. exists [], [mkLog to lvl m]. cbn.
  rewrite !app_nil_r. auto.
Qed.

Lemma framed_foreign inj c :
  allowed c = true -> framed allowed inj (foreign c).
Proof.
  intros Hc w. unfold foreign, self_of, trace_of, log_of.
  destruct (k32 (os w) c) as [s r]. cbn.
  split; [reflexivity|]. exists [(c, r)], []. rewrite app_nil_r.
  repeat split. constructor; [exact Hc | constructor].
Qed.

Lemma framed_bind {A B} inj (m : Py OS A) (k : A -> Py OS B) :
  framed allowed inj m -> (forall a, framed allowed inj (k a)) -> framed allowed inj (bind m k).
Proof.
  intros Hm Hk w. specialize (Hm w). revert Hm.
  unfold bind, self_of, trace_of, log_of.
  destruct (m (inj, w)) as [[a|e] [inj1 w1]]; cbn;
    intros (-> & evs & lg & Ht & Hl & Hf).
  - specialize (Hk a w1). revert Hk. unfold self_of, trace_of, log_of.
    destruct (k a (inj, w1)) as [r [inj2 w2]]. cbn.
    intros (-> & evs2 & lg2 & Ht2 & Hl2 & Hf2).
    split; [reflexivity|]. exists (evs ++ evs2), (lg ++ lg2).
    rewrite Ht2, Hl2, Ht, Hl, <- !app_assoc. repeat split.
    apply Forall_app. auto.
  - split; [reflexivity|]. exists evs, lg. auto.
Qed.

Lemma framed_get_self {A} inj (k : DLLInjector -> Py OS A) :
  framed allowed inj (k inj) -> framed allowed inj (bind get_self k).
Proof. intros Hk w. exact (Hk w). Qed.

Lemma framed_exists {A} inj path (k : bool -> Py OS A) :
  (forall b, framed allowed inj (k b)) -> framed allowed inj (bind (os_path_exists path) k).
Proof. intros Hk w. exact (Hk _ w). Qed.

Lemma framed_try_except {A} inj (body : Py OS A) (handler : Exn -> Py OS A) :
  framed allowed inj body -> (forall e, framed allowed inj (handler e)) ->
  framed allowed inj (try_except body handler).
Proof.
  intros Hm Hk w. specialize (Hm w). revert Hm.
  unfold try_except, self_of, trace_of, log_of.
  destruct (body (inj, w)) as [[a|e] [inj1 w1]]; cbn;
    intros (-> & evs & lg & Ht & Hl & Hf).
  - split; [reflexivity|]. exists evs, lg. auto.
  - specialize (Hk e w1). revert Hk. unfold self_of, trace_of, log_of.
    destruct (handler e (inj, w1)) as [r [inj2 w2]]. cbn.
    intros (-> & evs2 & lg2 & Ht2 & Hl2 & Hf2).
    split; [reflexivity|]. exists (evs ++ evs2), (lg ++ lg2).
    rewrite Ht2, Hl2, Ht, Hl, <- !app_assoc. repeat split.
    apply Forall_app. auto.
Qed.

Lemma framed_try_finally {A} inj (body : Py OS A) (fin : Py OS unit) :
  framed allowed inj body -> framed allowed inj fin -> framed allowed inj (try_finally body fin).
Proof.
  intros Hm Hk w. specialize (Hm w). revert Hm.
  unfold try_finally, self_of, trace_of, log_of.
  destruct (body (inj, w)) as [r [inj1 w1]]; cbn.
  intros (-> & evs & lg & Ht & Hl & Hf).
  specialize (Hk w1). revert Hk. unfold self_of, trace_of, log_of.
  destruct (fin (inj, w1)) as [[u|e] [inj2 w2]]; cbn;
    intros (-> & evs2 & lg2 & Ht2 & Hl2 & Hf2);
    (split; [reflexivity|]); exists (evs ++ evs2), (lg ++ lg2);
    rewrite Ht2, Hl2, Ht, Hl, <- !app_assoc; repeat split;
    apply Forall_app; auto.
Qed.

Lemma framed_emit_extra inj to lvl m extra :
  framed allowed inj (emit_extra (OS:=OS) to lvl m extra).
Proof.
  unfold emit_extra. destruct (List.find overwrites extra).
  - apply framed_raise.
  - apply framed_emit.
Qed.

Lemma framed_log_exceptions {A} inj name (body : Py OS A) :
  framed allowed inj body -> framed allowed inj (log_exceptions name body).
Proof.
  intros Hb. unfold log_exceptions. apply framed_try_except; [exact Hb|].
  intros e. apply framed_bind; [apply framed_emit_extra|]. intros _. apply framed_reraise.
Qed.

Lemma framed_encode inj s : framed allowed inj (encode (OS:=OS) s).
Proof.
  unfold encode. destruct (encode_ascii s); [apply framed_pure|].
  destruct (default (0, 0) (first_bad_run s 0)). apply framed_raise.
Qed.

Lemma works_on_held (h : option Z) (c : Call) :
  manages_handle c = false -> handle_arg c = Some h -> works_on h c = true.
Proof.
  intros Hm Hh. unfold works_on. rewrite Hm, Hh. cbn.
  apply bool_decide_eq_true. reflexivity.
Qed.

End Framed.

(** Take a method body apart, statement by statement. *)
Ltac framed_step :=
  first
    [ apply framed_log_exceptions
    | apply framed_get_self
    | apply framed_exists; intros ?
    | apply framed_try_finally
    | apply framed_try_except; [|intros ?]
    | apply framed_bind; [|intros ?]
    | apply framed_emit
    | apply framed_pure
    | apply framed_raise
    | apply framed_reraise
    | apply framed_encode
    | apply framed_foreign; first [reflexivity | apply works_on_held; reflexivity]
    | match goal with |- framed _ _ (if ?b then _ else _) => destruct b end
    | match goal with |- framed _ _ (let _ := _ in _) => cbv zeta end ].

Section FramedMethods.
Context {OS : Type} `{Kernel32 OS}.
Implicit Types (inj : DLLInjector) (w : World OS).

Lemma framed_write_to_memory inj address payload :
  framed (works_on (proc_handle inj)) inj (write_to_memory address payload).
Proof. unfold write_to_memory. repeat framed_step. Qed.

Lemma framed_allocate_remote_buffer inj data length :
  framed (works_on (proc_handle inj)) inj (allocate_remote_buffer data length).
Proof.
  unfold allocate_remote_buffer.
  repeat first [ apply framed_write_to_memory | framed_step ].
Qed.

Lemma framed_release_remote_buffer inj addr length :
  framed (works_on (proc_handle inj)) inj (release_remote_buffer addr length).
Proof. unfold release_remote_buffer. repeat framed_step. Qed.

Lemma framed_read_memory_region inj address length :
  framed (works_on (proc_handle inj)) inj (read_memory_region address length).
Proof. unfold read_memory_region. repeat framed_step. Qed.

Lemma framed_get_func_address inj dll func :
  framed (works_on (proc_handle inj)) inj (get_func_address dll func).
Proof. unfold get_func_address. repeat framed_step. Qed.

Lemma framed_run_remote_function inj addr arg_data :
  framed (works_on (proc_handle inj)) inj (run_remote_function addr arg_data).
Proof.
  unfold run_remote_function.
  repeat first [ apply framed_allocate_remote_buffer
               | apply framed_release_remote_buffer
               | framed_step ].
Qed.

Lemma framed_load_library_into_target inj dll_bytes :
  framed (works_on (proc_handle inj)) inj (load_library_into_target dll_bytes).
Proof.
  unfold load_library_into_target.
  repeat first [ apply framed_get_func_address
               | apply framed_run_remote_function
               | framed_step ].
Qed.

Lemma framed_inject_shared_library inj dll_path :
  framed (works_on (proc_handle inj)) inj (inject_shared_library dll_path).
Proof.
  unfold inject_shared_library, inject_shared_library_body.
  repeat first [ apply framed_load_library_into_target | framed_step ].
Qed.

Lemma framed_resolve_func_offset inj module_path func_name :
  framed (works_on (proc_handle inj)) inj (resolve_func_offset module_path func_name).
Proof. unfold resolve_func_offset. repeat framed_step. Qed.

Lemma framed_execute_exported inj dll_path base_addr func_name raw_args :
  framed (works_on (proc_handle inj)) inj (execute_exported dll_path base_addr func_name raw_args).
Proof.
  unfold execute_exported.
  repeat first [ apply framed_resolve_func_offset
               | apply framed_run_remote_function
               | framed_step ].
Qed.

End FramedMethods.

(** X1. The methods that work on the target, all but [attach_to_pid] and
    [cleanup], leave the injector as it was on every path, whether they
    return or raise: the process id and the handle it holds are the same
    after the call.  They only add to the trace and to the log, they call
    neither [OpenProcess] nor [CloseHandle], and every call they make that
    takes a process handle is made on the handle the injector holds. *)
Theorem working_methods_keep_the_handle {OS : Type} `{Kernel32 OS} (inj : DLLInjector) :
  let allowed := works_on (proc_handle inj) in
  (forall address payload, framed allowed inj (write_to_memory address payload))
  /\ (forall data length, framed allowed inj (allocate_remote_buffer data length))
  /\ (forall addr length, framed allowed inj (release_remote_buffer addr length))
  /\ (forall address length, framed allowed inj (read_memory_region address length))
  /\ (forall dll func, framed allowed inj (get_func_address dll func))
  /\ (forall addr arg_data, framed allowed inj (run_remote_function addr arg_data))
  /\ (forall dll_bytes, framed allowed inj (load_library_into_target dll_bytes))
  /\ (forall dll_path, framed allowed inj (inject_shared_library dll_path))
  /\ (forall module_path func_name,
        framed allowed inj (resolve_func_offset module_path func_name))
  /\ (forall dll_path base_addr func_name raw_args,
        framed allowed inj (execute_exported dll_path base_addr func_name raw_args)).
Proof.
  cbv zeta. repeat match goal with |- _ /\ _ => split end; intros.
  - apply framed_write_to_memory.
  - apply framed_allocate_remote_buffer.
  - apply framed_release_remote_buffer.
  - apply framed_read_memory_region.
  - apply framed_get_func_address.
  - apply framed_run_remote_function.
  - apply framed_load_library_into_target.
  - apply framed_inject_shared_library.
  - apply framed_resolve_func_offset.
  - apply framed_execute_exported.
Qed.

(** X2. Looking a symbol up never touches the target process:
    [resolve_func_offset] and [get_func_address] make no call that takes a
    process handle (no allocation, write, read, release or thread in the
    target) and none that opens or closes one, on any path. *)
Theorem symbol_lookup_stays_local {OS : Type} `{Kernel32 OS} (inj : DLLInjector) :
  (forall module_path func_name,
     framed is_local inj (resolve_func_offset module_path func_name))
  /\ (forall dll func, framed is_local inj (get_func_address dll func)).
Proof.
  split; intros.
  - unfold resolve_func_offset. repeat framed_step.
  - unfold get_func_address. repeat framed_step.
Qed.

(** ** [run_remote_function], path by path *)

(** Rewrite with the replies of kernel32 and the tests on them that are
    among the hypotheses, and compute up to the next one. *)
Ltac py_eval :=
  repeat (cbn;
          match goal with
          | E : k32 _ _ = _ |- _ => rewrite E
          | E : falsy _ = _ |- _ => rewrite E
          | E : (_ =? _)%Z = _ |- _ => rewrite E
          | E : encode_ascii _ = _ |- _ => rewrite E
          | E : path_exists _ _ = _ |- _ => rewrite E
          end);
  cbn.

Section RunPaths.
Context {OS : Type} `{Kernel32 OS}.
Implicit Types (inj : DLLInjector) (w : World OS).

Lemma run_remote_function_ok
    inj w addr arg_data s1 a s2 wr s3 th s4 wt s5 got s6 fr :
  k32 (os w) (VirtualAllocEx (proc_handle inj) (c_int (len arg_data)) MEM_FLAGS RWX_PERMISSIONS)
    = (s1, a) -> ret a <> 0 ->
  k32 s1 (WriteProcessMemory (proc_handle inj) (ret a) arg_data (len arg_data)) = (s2, wr) ->
  ret wr <> 0 ->
  k32 s2 (CreateRemoteThread (proc_handle inj) (c_long addr) (c_long (ret a))) = (s3, th) ->
  ret th <> 0 ->
  k32 s3 (WaitForSingleObject (ret th) 0xFFFFFFFF) = (s4, wt) -> ret wt <> 0xFFFFFFFF ->
  k32 s4 (GetExitCodeThread (ret th)) = (s5, got) -> ret got <> 0 ->
  k32 s5 (VirtualFreeEx (proc_handle inj) (ret a) 0 FREE_MEM) = (s6, fr) -> ret fr <> 0 ->
  exists lg,
    run_remote_function addr arg_data (inj, w) =
      (Return (c_long (out_long got)),
       (inj,
        mkWorld s6
          (trace w ++
           [(VirtualAllocEx (proc_handle inj) (c_int (len arg_data)) MEM_FLAGS
               RWX_PERMISSIONS, a);
            (WriteProcessMemory (proc_handle inj) (ret a) arg_data (len arg_data), wr);
            (CreateRemoteThread (proc_handle inj) (c_long addr) (c_long (ret a)), th);
            (WaitForSingleObject (ret th) 0xFFFFFFFF, wt);
            (GetExitCodeThread (ret th), got);
            (VirtualFreeEx (proc_handle inj) (ret a) 0 FREE_MEM, fr)])
          lg)).
Proof.
  intros Ha Hanz Hw Hwnz Ht Htnz Hwt Hwtnz Hg Hgnz Hf Hfnz.
  apply falsy_false in Hanz, Hwnz, Htnz, Hgnz, Hfnz. apply Z.eqb_neq in Hwtnz.
  unfold run_remote_function, allocate_remote_buffer, write_to_memory,
    release_remote_buffer.
  py_unfold. change (c_int 0) with 0. py_eval.
  rewrite <- !app_assoc. cbn. eexists. reflexivity.
Qed.

(** X3. When every call succeeds, [run_remote_function] makes exactly six
    calls, in this order: it allocates a buffer of the size of the
    argument, writes the argument into it, starts a thread at [c_long addr]
    with [c_long] of the buffer's address as its parameter, waits for the
    thread without a time limit, reads its exit code and releases the
    buffer.  It returns the exit code as a C [long] and leaves the injector
    as it was. *)
Theorem run_remote_function_in_order
    inj w addr arg_data s1 a s2 wr s3 th s4 wt s5 got s6 fr :
  k32 (os w) (VirtualAllocEx (proc_handle inj) (c_int (len arg_data)) MEM_FLAGS RWX_PERMISSIONS)
    = (s1, a) -> ret a <> 0 ->
  k32 s1 (WriteProcessMemory (proc_handle inj) (ret a) arg_data (len arg_data)) = (s2, wr) ->
  ret wr <> 0 ->
  k32 s2 (CreateRemoteThread (proc_handle inj) (c_long addr) (c_long (ret a))) = (s3, th) ->
  ret th <> 0 ->
  k32 s3 (WaitForSingleObject (ret th) 0xFFFFFFFF) = (s4, wt) -> ret wt <> 0xFFFFFFFF ->
  k32 s4 (GetExitCodeThread (ret th)) = (s5, got) -> ret got <> 0 ->
  k32 s5 (VirtualFreeEx (proc_handle inj) (ret a) 0 FREE_MEM) = (s6, fr) -> ret fr <> 0 ->
  let r := run_remote_function addr arg_data (inj, w) in
  outcome_of r = Return (c_long (out_long got))
  /\ self_of r = inj
  /\ os_of r = s6
  /\ trace_of r =
       trace w ++
       [(VirtualAllocEx (proc_handle inj) (c_int (len arg_data)) MEM_FLAGS RWX_PERMISSIONS, a);
        (WriteProcessMemory (proc_handle inj) (ret a) arg_data (len arg_data), wr);
        (CreateRemoteThread (proc_handle inj) (c_long addr) (c_long (ret a)), th);
        (WaitForSingleObject (ret th) 0xFFFFFFFF, wt);
        (GetExitCodeThread (ret th), got);
        (VirtualFreeEx (proc_handle inj) (ret a) 0 FREE_MEM, fr)].
Proof.
  intros Ha Hanz Hw Hwnz Ht Htnz Hwt Hwtnz Hg Hgnz Hf Hfnz r.
  destruct (run_remote_function_ok inj w addr arg_data s1 a s2 wr s3 th s4 wt s5 got s6 fr
              Ha Hanz Hw Hwnz Ht Htnz Hwt Hwtnz Hg Hgnz Hf Hfnz) as [lg Hrun].
  subst r. rewrite Hrun. repeat split; reflexivity.
Qed.

(** X4. A failure to release the argument buffer makes the whole call
    fail.  On every path on which [VirtualFreeEx] is called and returns
    zero, [run_remote_function] is left by an exception, also when the
    thread ran to its end and its exit code had been read: the exit code
    is lost.  The failure of the release, with the code [GetLastError]
    then reports, is in the log; the exception is the [KeyError] of the
    decorator's logging call. *)
Theorem run_remote_function_release_failure_masks
    inj w addr arg_data evs h a size free_type fr :
  trace_of (run_remote_function addr arg_data (inj, w)) = trace w ++ evs ->
  In (VirtualFreeEx h a size free_type, fr) evs ->
  ret fr = 0 ->
  exists code,
    outcome_of (run_remote_function addr arg_data (inj, w)) = Raise args_KeyError
    /\ In (mkLog logger ERROR
             (Fmt "Failed to release memory at 0x{:08x} (Error: {})"
                [Int a; Int (ret code)]))
          (log_of (run_remote_function addr arg_data (inj, w)))
    /\ In (GetLastError, code) evs.
Proof.
  intros Htr Hin Hz.
  remember (run_remote_function addr arg_data (inj, w)) as r eqn:Hr.
  unfold run_remote_function, allocate_remote_buffer, write_to_memory,
    release_remote_buffer in Hr.
  py_unfold. cbn in Hr. change (c_int 0) with 0 in Hr.
  repeat py_case Hr; subst r; cbn in Htr |- *;
    rewrite <- ?app_assoc in Htr; cbn in Htr;
    apply app_inv_head in Htr; subst evs;
    cbn in Hin;
    repeat match goal with
           | Hor : _ \/ _ |- _ => destruct Hor as [Hor|Hor]
           | Hf : False |- _ => destruct Hf
           | E : (_, _) = (_, _) |- _ =>
               first [discriminate E | inversion E; subst; clear E]
           end;
    try match goal with
        | E : falsy (ret ?t) = false, N : ret ?t = 0 |- _ =>
            apply falsy_false in E; contradiction
        end;
    (eexists; split; [reflexivity|]; split; [log_has | in_list]).
Qed.

(** X5. Once the argument has been written into the buffer,
    [run_remote_function] calls [VirtualFreeEx] exactly once before it is
    left, on each of its paths, and that call releases the whole region of
    the buffer (size 0, MEM_RELEASE) through the handle the injector
    holds. *)
Theorem run_remote_function_releases_once
    inj w addr arg_data evs h a payload n wr :
  trace_of (run_remote_function addr arg_data (inj, w)) = trace w ++ evs ->
  In (WriteProcessMemory h a payload n, wr) evs ->
  ret wr <> 0 ->
  exists fr,
    List.filter (fun ev => is_VirtualFreeEx (fst ev)) evs =
      [(VirtualFreeEx (proc_handle inj) a 0 FREE_MEM, fr)].
Proof.
  intros Htr Hin Hnz.
  unfold run_remote_function, allocate_remote_buffer, write_to_memory,
    release_remote_buffer in Htr.
  py_unfold. cbn in Htr. change (c_int 0) with 0 in Htr.
  repeat py_case Htr;
    rewrite <- ?app_assoc in Htr; cbn in Htr;
    apply app_inv_head in Htr; subst evs;
    cbn in Hin;
    repeat match goal with
           | Hor : _ \/ _ |- _ => destruct Hor as [Hor|Hor]
           | Hf : False |- _ => destruct Hf
           | E : (_, _) = (_, _) |- _ =>
               first [discriminate E | inversion E; subst; clear E]
           end;
    try match goal with
        | E : falsy (ret ?t) = true, N : ret ?t <> 0 |- _ =>
            apply falsy_true in E; contradiction
        end;
    (eexists; reflexivity).
Qed.

End RunPaths.

Lemma c_long_wraps (addr k : Z) : c_long (addr + k * 2 ^ 32) = c_long addr.
Proof.
  unfold c_long, c_int.
  replace (addr + k * 2 ^ 32 + 2 ^ 31) with (addr + 2 ^ 31 + k * 2 ^ 32) by lia.
  now rewrite Z.mod_add by lia.
Qed.

Section RunEdges.
Context {OS : Type} `{Kernel32 OS}.
Implicit Types (inj : DLLInjector) (w : World OS).

(** X6. When the buffer cannot be allocated, [run_remote_function] stops
    there: it is left by an exception (the [KeyError] of the decorator,
    in place of the [MemoryAllocationError] of [allocate_remote_buffer])
    after the allocation and [GetLastError], and no other call.  Nothing
    is written, no thread is created and [VirtualFreeEx] is not called on
    the null address. *)
Theorem run_remote_function_allocation_failed inj w addr arg_data s1 a s2 code :
  k32 (os w) (VirtualAllocEx (proc_handle inj) (c_int (len arg_data)) MEM_FLAGS RWX_PERMISSIONS)
    = (s1, a) -> ret a = 0 ->
  k32 s1 GetLastError = (s2, code) ->
  let r := run_remote_function addr arg_data (inj, w) in
  outcome_of r = Raise args_KeyError
  /\ os_of r = s2
  /\ trace_of r =
       trace w ++
       [(VirtualAllocEx (proc_handle inj) (c_int (len arg_data)) MEM_FLAGS RWX_PERMISSIONS, a);
        (GetLastError, code)].
Proof.
  intros Ha Hz Hc r. apply falsy_true in Hz.
  subst r. unfold run_remote_function, allocate_remote_buffer. py_unfold. py_eval.
  rewrite <- !app_assoc. repeat split; reflexivity.
Qed.

(** X7. The start address reaches kernel32 as a C [long] of 32 bits.  Two
    runs of [run_remote_function] from the same state whose addresses
    differ by a multiple of 2^32 make the same calls, get the same
    replies and end with the same outcome: the bits of an address above
    the 32nd are dropped before the thread is created. *)
Theorem run_remote_function_wraps_address inj w addr arg_data k :
  let r1 := run_remote_function addr arg_data (inj, w) in
  let r2 := run_remote_function (addr + k * 2 ^ 32) arg_data (inj, w) in
  outcome_of r1 = outcome_of r2
  /\ os_of r1 = os_of r2
  /\ trace_of r1 = trace_of r2.
Proof.
  cbv zeta.
  unfold run_remote_function, allocate_remote_buffer, write_to_memory,
    release_remote_buffer.
  py_unfold. rewrite c_long_wraps. cbn. change (c_int 0) with 0.
  repeat py_case_goal; repeat split; reflexivity.
Qed.

End RunEdges.

Lemma run_remote_function_allocation_failed_witness :
  let r := run_remote_function 0x77001000 payload (attached, world_no_memory) in
  outcome_of r =
    Raise args_KeyError
  /\ os_of r = Scripted.mk [] []
  /\ trace_of r =
       [(VirtualAllocEx (Some 1234) 5 MEM_FLAGS RWX_PERMISSIONS, reply 0);
        (GetLastError, reply 8)].
Proof.
  exact (run_remote_function_allocation_failed attached world_no_memory 0x77001000 payload
           _ (reply 0) _ (reply 8) eq_refl eq_refl eq_refl).
Defined.

(** ** Loading a library: [get_func_address], [load_library_into_target],
    [inject_shared_library] *)

Section LoadPaths.
Context {OS : Type} `{Kernel32 OS}.
Implicit Types (inj : DLLInjector) (w : World OS).

Lemma encode_kernel32_dll : encode_ascii (str_of "kernel32.dll") = Some kernel32_dll.
Proof. vm_compute. reflexivity. Qed.

Lemma encode_LoadLibraryA : encode_ascii (str_of "LoadLibraryA") = Some LoadLibraryA_name.
Proof. vm_compute. reflexivity. Qed.

Lemma get_func_address_ok inj w dll func dll_name func_name s1 mb s2 fp :
  encode_ascii dll = Some dll_name ->
  k32 (os w) (GetModuleHandleA dll_name) = (s1, mb) -> ret mb <> 0 ->
  encode_ascii func = Some func_name ->
  k32 s1 (GetProcAddress (ret mb) func_name) = (s2, fp) -> ret fp <> 0 ->
  exists lg,
    get_func_address dll func (inj, w) =
      (Return (ret fp),
       (inj,
        mkWorld s2
          (trace w ++
           [(GetModuleHandleA dll_name, mb); (GetProcAddress (ret mb) func_name, fp)])
          lg)).
Proof.
  intros Hd Hm Hmnz Hf Hp Hpnz. apply falsy_false in Hmnz, Hpnz.
  unfold get_func_address, encode. py_unfold. py_eval.
  rewrite <- !app_assoc. cbn. eexists. reflexivity.
Qed.

Lemma load_library_into_target_ok
    inj w dll_bytes s1 mb s2 fp s3 a s4 wr s5 th s6 wt s7 got s8 fr :
  k32 (os w) (GetModuleHandleA kernel32_dll) = (s1, mb) -> ret mb <> 0 ->
  k32 s1 (GetProcAddress (ret mb) LoadLibraryA_name) = (s2, fp) -> ret fp <> 0 ->
  k32 s2 (VirtualAllocEx (proc_handle inj) (c_int (len dll_bytes)) MEM_FLAGS RWX_PERMISSIONS)
    = (s3, a) -> ret a <> 0 ->
  k32 s3 (WriteProcessMemory (proc_handle inj) (ret a) dll_bytes (len dll_bytes)) = (s4, wr) ->
  ret wr <> 0 ->
  k32 s4 (CreateRemoteThread (proc_handle inj) (c_long (ret fp)) (c_long (ret a))) = (s5, th) ->
  ret th <> 0 ->
  k32 s5 (WaitForSingleObject (ret th) 0xFFFFFFFF) = (s6, wt) -> ret wt <> 0xFFFFFFFF ->
  k32 s6 (GetExitCodeThread (ret th)) = (s7, got) -> ret got <> 0 ->
  k32 s7 (VirtualFreeEx (proc_handle inj) (ret a) 0 FREE_MEM) = (s8, fr) -> ret fr <> 0 ->
  exists lg,
    load_library_into_target dll_bytes (inj, w) =
      ((if c_long (out_long got) =? 0 then
          Raise args_KeyError
        else Return (c_long (out_long got))),
       (inj,
        mkWorld s8
          (trace w ++
           [(GetModuleHandleA kernel32_dll, mb);
            (GetProcAddress (ret mb) LoadLibraryA_name, fp);
            (VirtualAllocEx (proc_handle inj) (c_int (len dll_bytes)) MEM_FLAGS
               RWX_PERMISSIONS, a);
            (WriteProcessMemory (proc_handle inj) (ret a) dll_bytes (len dll_bytes), wr);
            (CreateRemoteThread (proc_handle inj) (c_long (ret fp)) (c_long (ret a)), th);
            (WaitForSingleObject (ret th) 0xFFFFFFFF, wt);
            (GetExitCodeThread (ret th), got);
            (VirtualFreeEx (proc_handle inj) (ret a) 0 FREE_MEM, fr)])
          lg)).
Proof.
  intros Hm Hmnz Hp Hpnz Ha Hanz Hw Hwnz Ht Htnz Hwt Hwtnz Hg Hgnz Hf Hfnz.
  unfold load_library_into_target. py_unfold. cbn -[str_of].
  match goal with |- context [get_func_address _ _ (inj, ?w')] => set (w1 := w') end.
  destruct (get_func_address_ok inj w1 (str_of "kernel32.dll") (str_of "LoadLibraryA")
              kernel32_dll LoadLibraryA_name s1 mb s2 fp
              encode_kernel32_dll Hm Hmnz encode_LoadLibraryA Hp Hpnz) as [lg1 Hga].
  rewrite Hga. cbn.
  match goal with |- context [run_remote_function _ _ (inj, ?w')] => set (w2 := w') end.
  destruct (run_remote_function_ok inj w2 (ret fp) dll_bytes s3 a s4 wr s5 th s6 wt s7 got s8 fr
              Ha Hanz Hw Hwnz Ht Htnz Hwt Hwtnz Hg Hgnz Hf Hfnz) as [lg2 Hrun].
  rewrite Hrun. cbn.
  destruct (c_long (out_long got) =? 0); cbn;
    rewrite <- !app_assoc; cbn; eexists; reflexivity.
Qed.

(** X8. [load_library_into_target] does not touch the target when the
    loader cannot be found.  When [GetModuleHandleA] on the name
    kernel32.dll returns zero, or [GetProcAddress] for LoadLibraryA on the
    module it found does, the method is left by an exception (the
    [KeyError] of the decorator); [GetModuleHandleA] was its first call,
    and none of its calls went into the target process: nothing was
    allocated there. *)
Theorem load_library_needs_the_loader inj w dll_bytes s1 mb s2 fp :
  k32 (os w) (GetModuleHandleA kernel32_dll) = (s1, mb) ->
  k32 s1 (GetProcAddress (ret mb) LoadLibraryA_name) = (s2, fp) ->
  ret mb = 0 \/ ret fp = 0 ->
  let r := load_library_into_target dll_bytes (inj, w) in
  outcome_of r = Raise args_KeyError
  /\ exists evs,
       trace_of r = trace w ++ (GetModuleHandleA kernel32_dll, mb) :: evs
       /\ Forall (fun ev => is_remote (fst ev) = false) evs.
Proof.
  intros Hm Hp Hz r. subst r.
  unfold load_library_into_target, get_func_address, encode. py_unfold.
  cbn -[str_of encode_ascii]. rewrite encode_kernel32_dll. cbn -[str_of encode_ascii].
  rewrite Hm. cbn -[str_of encode_ascii].
  destruct (falsy (ret mb)) eqn:Emb; cbn -[str_of encode_ascii].
  - destruct (k32 s1 GetLastError) as [s1' code]. cbn.
    rewrite <- !app_assoc. cbn.
    split; [reflexivity|].
    eexists. split; [reflexivity|]. repeat constructor.
  - apply falsy_false in Emb. destruct Hz as [Hz|Hz]; [contradiction|].
    apply falsy_true in Hz. rewrite encode_LoadLibraryA. cbn.
    rewrite Hp. cbn. rewrite Hz. cbn.
    destruct (k32 s2 GetLastError) as [s2' code]. cbn.
    rewrite <- !app_assoc. cbn.
    split; [reflexivity|].
    eexists. split; [reflexivity|]. repeat constructor.
Qed.

(** X9. A library that the target could not load makes the call fail.
    When every call of [load_library_into_target] succeeds and the exit
    code of the remote thread, the value [LoadLibraryA] returned there, is
    zero, the method does not return it: it is left by an exception (the
    [KeyError] of the decorator, in place of the [DLLInjectionError] of
    the body); the buffer that held the path has been released by then.
    A non-zero exit code is returned as the base address. *)
Theorem load_library_zero_is_an_error
    inj w dll_bytes s1 mb s2 fp s3 a s4 wr s5 th s6 wt s7 got s8 fr :
  k32 (os w) (GetModuleHandleA kernel32_dll) = (s1, mb) -> ret mb <> 0 ->
  k32 s1 (GetProcAddress (ret mb) LoadLibraryA_name) = (s2, fp) -> ret fp <> 0 ->
  k32 s2 (VirtualAllocEx (proc_handle inj) (c_int (len dll_bytes)) MEM_FLAGS RWX_PERMISSIONS)
    = (s3, a) -> ret a <> 0 ->
  k32 s3 (WriteProcessMemory (proc_handle inj) (ret a) dll_bytes (len dll_bytes)) = (s4, wr) ->
  ret wr <> 0 ->
  k32 s4 (CreateRemoteThread (proc_handle inj) (c_long (ret fp)) (c_long (ret a))) = (s5, th) ->
  ret th <> 0 ->
  k32 s5 (WaitForSingleObject (ret th) 0xFFFFFFFF) = (s6, wt) -> ret wt <> 0xFFFFFFFF ->
  k32 s6 (GetExitCodeThread (ret th)) = (s7, got) -> ret got <> 0 ->
  k32 s7 (VirtualFreeEx (proc_handle inj) (ret a) 0 FREE_MEM) = (s8, fr) -> ret fr <> 0 ->
  let r := load_library_into_target dll_bytes (inj, w) in
  outcome_of r =
    (if c_long (out_long got) =? 0 then
       Raise args_KeyError
     else Return (c_long (out_long got)))
  /\ exists before,
       trace_of r = before ++ [(VirtualFreeEx (proc_handle inj) (ret a) 0 FREE_MEM, fr)].
Proof.
  intros Hm Hmnz Hp Hpnz Ha Hanz Hw Hwnz Ht Htnz Hwt Hwtnz Hg Hgnz Hf Hfnz r.
  destruct (load_library_into_target_ok inj w dll_bytes
              s1 mb s2 fp s3 a s4 wr s5 th s6 wt s7 got s8 fr
              Hm Hmnz Hp Hpnz Ha Hanz Hw Hwnz Ht Htnz Hwt Hwtnz Hg Hgnz Hf Hfnz)
    as [lg Hrun].
  subst r. rewrite Hrun. split; [reflexivity|].
  unfold trace_of. cbn.
  exists (trace w ++
          [(GetModuleHandleA kernel32_dll, mb);
           (GetProcAddress (ret mb) LoadLibraryA_name, fp);
           (VirtualAllocEx (proc_handle inj) (c_int (len dll_bytes)) MEM_FLAGS
              RWX_PERMISSIONS, a);
           (WriteProcessMemory (proc_handle inj) (ret a) dll_bytes (len dll_bytes), wr);
           (CreateRemoteThread (proc_handle inj) (c_long (ret fp)) (c_long (ret a)), th);
           (WaitForSingleObject (ret th) 0xFFFFFFFF, wt);
           (GetExitCodeThread (ret th), got)]).
  rewrite <- app_assoc. reflexivity.
Qed.

Lemma inject_shared_library_ok
    inj w dll_path dll_bytes s1 mb s2 fp s3 a s4 wr s5 th s6 wt s7 got s8 fr :
  path_exists (os w) dll_path = true ->
  encode_ascii dll_path = Some dll_bytes ->
  k32 (os w) (GetModuleHandleA kernel32_dll) = (s1, mb) -> ret mb <> 0 ->
  k32 s1 (GetProcAddress (ret mb) LoadLibraryA_name) = (s2, fp) -> ret fp <> 0 ->
  k32 s2 (VirtualAllocEx (proc_handle inj) (c_int (len dll_path)) MEM_FLAGS RWX_PERMISSIONS)
    = (s3, a) -> ret a <> 0 ->
  k32 s3 (WriteProcessMemory (proc_handle inj) (ret a) dll_bytes (len dll_path)) = (s4, wr) ->
  ret wr <> 0 ->
  k32 s4 (CreateRemoteThread (proc_handle inj) (c_long (ret fp)) (c_long (ret a))) = (s5, th) ->
  ret th <> 0 ->
  k32 s5 (WaitForSingleObject (ret th) 0xFFFFFFFF) = (s6, wt) -> ret wt <> 0xFFFFFFFF ->
  k32 s6 (GetExitCodeThread (ret th)) = (s7, got) -> ret got <> 0 ->
  k32 s7 (VirtualFreeEx (proc_handle inj) (ret a) 0 FREE_MEM) = (s8, fr) -> ret fr <> 0 ->
  c_long (out_long got) <> 0 ->
  exists lg,
    inject_shared_library dll_path (inj, w) =
      (Return (c_long (out_long got)),
       (inj,
        mkWorld s8
          (trace w ++
           [(GetModuleHandleA kernel32_dll, mb);
            (GetProcAddress (ret mb) LoadLibraryA_name, fp);
            (VirtualAllocEx (proc_handle inj) (c_int (len dll_path)) MEM_FLAGS
               RWX_PERMISSIONS, a);
            (WriteProcessMemory (proc_handle inj) (ret a) dll_bytes (len dll_path), wr);
            (CreateRemoteThread (proc_handle inj) (c_long (ret fp)) (c_long (ret a)), th);
            (WaitForSingleObject (ret th) 0xFFFFFFFF, wt);
            (GetExitCodeThread (ret th), got);
            (VirtualFreeEx (proc_handle inj) (ret a) 0 FREE_MEM, fr)])
          lg)).
Proof.
  intros Hex Henc Hm Hmnz Hp Hpnz Ha Hanz Hw Hwnz Ht Htnz Hwt Hwtnz Hg Hgnz Hf Hfnz Hbase.
  destruct (encode_ascii_Some dll_path dll_bytes Henc) as [Hbytes _].
  assert (Hlen : len dll_bytes = len dll_path).
  { unfold len. rewrite <- Hbytes. now rewrite length_map. }
  rewrite <- Hlen in Ha, Hw.
  apply Z.eqb_neq in Hbase.
  unfold inject_shared_library, inject_shared_library_body, encode. py_unfold. cbn.
  rewrite Hex. cbn. rewrite Henc. cbn.
  match goal with
  | |- context [load_library_into_target _ (inj, ?w')] => set (w1 := w')
  end.
  destruct (load_library_into_target_ok inj w1 dll_bytes
              s1 mb s2 fp s3 a s4 wr s5 th s6 wt s7 got s8 fr
              Hm Hmnz Hp Hpnz Ha Hanz Hw Hwnz Ht Htnz Hwt Hwtnz Hg Hgnz Hf Hfnz)
    as [lg Hrun].
  rewrite Hrun, Hbase. cbn. rewrite <- Hlen. eexists. reflexivity.
Qed.

(** X10. The whole injection, when it goes through.  For an existing file
    whose path is ASCII, when every call succeeds and the remote
    [LoadLibraryA] returns a non-zero base, [inject_shared_library] returns
    that base (as a C [long]) and leaves the injector attached as it was.
    It makes eight calls: the two lookups of the loader, then allocate,
    write, create thread, wait, read exit code, release.  What it writes
    into the target is the path byte for byte, [len(dll_path)] bytes of
    it: no terminating zero byte is written after the path. *)
Theorem inject_shared_library_goes_through
    inj w dll_path dll_bytes s1 mb s2 fp s3 a s4 wr s5 th s6 wt s7 got s8 fr :
  path_exists (os w) dll_path = true ->
  encode_ascii dll_path = Some dll_bytes ->
  k32 (os w) (GetModuleHandleA kernel32_dll) = (s1, mb) -> ret mb <> 0 ->
  k32 s1 (GetProcAddress (ret mb) LoadLibraryA_name) = (s2, fp) -> ret fp <> 0 ->
  k32 s2 (VirtualAllocEx (proc_handle inj) (c_int (len dll_path)) MEM_FLAGS RWX_PERMISSIONS)
    = (s3, a) -> ret a <> 0 ->
  k32 s3 (WriteProcessMemory (proc_handle inj) (ret a) dll_bytes (len dll_path)) = (s4, wr) ->
  ret wr <> 0 ->
  k32 s4 (CreateRemoteThread (proc_handle inj) (c_long (ret fp)) (c_long (ret a))) = (s5, th) ->
  ret th <> 0 ->
  k32 s5 (WaitForSingleObject (ret th) 0xFFFFFFFF) = (s6, wt) -> ret wt <> 0xFFFFFFFF ->
  k32 s6 (GetExitCodeThread (ret th)) = (s7, got) -> ret got <> 0 ->
  k32 s7 (VirtualFreeEx (proc_handle inj) (ret a) 0 FREE_MEM) = (s8, fr) -> ret fr <> 0 ->
  c_long (out_long got) <> 0 ->
  let r := inject_shared_library dll_path (inj, w) in
  outcome_of r = Return (c_long (out_long got))
  /\ self_of r = inj
  /\ map Byte.to_N dll_bytes = dll_path
  /\ trace_of r =
       trace w ++
       [(GetModuleHandleA kernel32_dll, mb);
        (GetProcAddress (ret mb) LoadLibraryA_name, fp);
        (VirtualAllocEx (proc_handle inj) (c_int (len dll_path)) MEM_FLAGS RWX_PERMISSIONS, a);
        (WriteProcessMemory (proc_handle inj) (ret a) dll_bytes (len dll_path), wr);
        (CreateRemoteThread (proc_handle inj) (c_long (ret fp)) (c_long (ret a)), th);
        (WaitForSingleObject (ret th) 0xFFFFFFFF, wt);
        (GetExitCodeThread (ret th), got);
        (VirtualFreeEx (proc_handle inj) (ret a) 0 FREE_MEM, fr)].
Proof.
  intros Hex Henc Hm Hmnz Hp Hpnz Ha Hanz Hw Hwnz Ht Htnz Hwt Hwtnz Hg Hgnz Hf Hfnz Hbase r.
  destruct (inject_shared_library_ok inj w dll_path dll_bytes
              s1 mb s2 fp s3 a s4 wr s5 th s6 wt s7 got s8 fr
              Hex Henc Hm Hmnz Hp Hpnz Ha Hanz Hw Hwnz Ht Htnz Hwt Hwtnz Hg Hgnz Hf Hfnz Hbase)
    as [lg Hrun].
  subst r. rewrite Hrun. repeat split; try reflexivity.
  now destruct (encode_ascii_Some dll_path dll_bytes Henc).
Qed.

End LoadPaths.

(** ** Calling an exported function: [execute_exported] *)

(** A path that the strict codec encoded is read back as it was by the
    replacing decoder. *)
Lemma decode_encode_ascii (s : str) (b : bytes) :
  encode_ascii s = Some b -> decode_ascii_replace b = s.
Proof.
  revert b. induction s as [|c rest IH]; intros b; cbn.
  - intros [= <-]. reflexivity.
  - destruct (is_ascii c) eqn:Hc; [|discriminate].
    destruct (Byte.of_N c) as [x|] eqn:Hx; [|discriminate].
    destruct (encode_ascii rest) as [bs|]; [|discriminate].
    intros [= <-]. unfold decode_ascii_replace in *. cbn.
    apply Byte.to_of_N in Hx. rewrite Hx, Hc. f_equal. now apply IH.
Qed.

Section CallPaths.
Context {OS : Type} `{Kernel32 OS}.
Implicit Types (inj : DLLInjector) (w : World OS).
#[local] Arguments decode_ascii_replace : simpl never.

Lemma resolve_func_offset_ok inj w module_path func_name name s1 base s2 fp s3 freed :
  k32 (os w) (LoadLibraryA module_path) = (s1, base) -> ret base <> 0 ->
  encode_ascii func_name = Some name ->
  k32 s1 (GetProcAddress (ret base) name) = (s2, fp) -> ret fp <> 0 ->
  k32 s2 (FreeLibrary (ret base)) = (s3, freed) -> ret freed <> 0 ->
  exists lg,
    resolve_func_offset module_path func_name (inj, w) =
      (Return (ret fp - ret base),
       (inj,
        mkWorld s3
          (trace w ++
           [(LoadLibraryA module_path, base);
            (GetProcAddress (ret base) name, fp);
            (FreeLibrary (ret base), freed)])
          lg)).
Proof.
  intros Hl Hlnz Henc Hp Hpnz Hf Hfnz. apply falsy_false in Hlnz, Hpnz, Hfnz.
  unfold resolve_func_offset, encode. py_unfold. py_eval.
  rewrite <- !app_assoc. cbn. eexists. reflexivity.
Qed.

(** X11. A symbol the library does not export is found out locally.  When
    the library loads in the injector's own process and [GetProcAddress]
    returns zero there, [execute_exported] is left by an exception (the
    [KeyError] of the decorator); the log names the function, the path as
    it was given and the code of [GetLastError]; the local copy is
    unloaded with [FreeLibrary]; and no call at all is made into the
    target, so no allocation is left behind there. *)
Theorem execute_exported_symbol_missing
    inj w dll_path base_addr func_name raw_args module_path name s1 base s2 fp s3 code :
  encode_ascii dll_path = Some module_path ->
  k32 (os w) (LoadLibraryA module_path) = (s1, base) -> ret base <> 0 ->
  encode_ascii func_name = Some name ->
  k32 s1 (GetProcAddress (ret base) name) = (s2, fp) -> ret fp = 0 ->
  k32 s2 GetLastError = (s3, code) ->
  let r := execute_exported dll_path base_addr func_name raw_args (inj, w) in
  outcome_of r = Raise args_KeyError
  /\ In (mkLog logger ERROR
           (Fmt "Function {} not found in {} (Error: {})"
              [Str func_name; Str dll_path; Int (ret code)]))
        (log_of r)
  /\ exists evs,
       trace_of r = trace w ++ evs
       /\ Forall (fun ev => is_remote (fst ev) = false) evs
       /\ In (FreeLibrary (ret base), snd (k32 s3 (FreeLibrary (ret base)))) evs.
Proof.
  intros Hd Hl Hlnz Henc Hp Hpz Hc r.
  apply falsy_false in Hlnz. apply falsy_true in Hpz.
  pose proof (decode_encode_ascii dll_path module_path Hd) as Hrt.
  subst r. unfold execute_exported, resolve_func_offset, encode. py_unfold.
  py_eval. rewrite Hrt.
  destruct (k32 s3 (FreeLibrary (ret base))) as [s4 freed] eqn:Hf. cbn.
  destruct (falsy (ret freed)); cbn.
  - destruct (k32 s4 GetLastError) as [s5 code2]. cbn.
    rewrite <- !app_assoc. cbn. split; [reflexivity|]. split; [log_has|].
    eexists. split; [reflexivity|]. split; [repeat constructor | in_list].
  - rewrite <- !app_assoc. cbn. split; [reflexivity|]. split; [log_has|].
    eexists. split; [reflexivity|]. split; [repeat constructor | in_list].
Qed.

(** X12. The address [execute_exported] runs is the base given for the
    target plus the offset measured locally.  When every call succeeds,
    the library is loaded in the injector's own process, the symbol looked
    up and the local copy unloaded before anything is done in the target;
    then the arguments are written into a buffer there and a thread is
    started at [c_long (base_addr + (func_ptr - temp_base))] with the
    buffer as its parameter.  The exit code of that thread is the
    result. *)
Theorem execute_exported_runs_at_offset
    inj w dll_path base_addr func_name raw_args module_path name
    s1 base s2 fp s3 freed s4 a s5 wr s6 th s7 wt s8 got s9 fr :
  encode_ascii dll_path = Some module_path ->
  k32 (os w) (LoadLibraryA module_path) = (s1, base) -> ret base <> 0 ->
  encode_ascii func_name = Some name ->
  k32 s1 (GetProcAddress (ret base) name) = (s2, fp) -> ret fp <> 0 ->
  k32 s2 (FreeLibrary (ret base)) = (s3, freed) -> ret freed <> 0 ->
  k32 s3 (VirtualAllocEx (proc_handle inj) (c_int (len raw_args)) MEM_FLAGS RWX_PERMISSIONS)
    = (s4, a) -> ret a <> 0 ->
  k32 s4 (WriteProcessMemory (proc_handle inj) (ret a) raw_args (len raw_args)) = (s5, wr) ->
  ret wr <> 0 ->
  k32 s5 (CreateRemoteThread (proc_handle inj)
            (c_long (base_addr + (ret fp - ret base))) (c_long (ret a))) = (s6, th) ->
  ret th <> 0 ->
  k32 s6 (WaitForSingleObject (ret th) 0xFFFFFFFF) = (s7, wt) -> ret wt <> 0xFFFFFFFF ->
  k32 s7 (GetExitCodeThread (ret th)) = (s8, got) -> ret got <> 0 ->
  k32 s8 (VirtualFreeEx (proc_handle inj) (ret a) 0 FREE_MEM) = (s9, fr) -> ret fr <> 0 ->
  let r := execute_exported dll_path base_addr func_name raw_args (inj, w) in
  outcome_of r = Return (c_long (out_long got))
  /\ self_of r = inj
  /\ trace_of r =
       trace w ++
       [(LoadLibraryA module_path, base);
        (GetProcAddress (ret base) name, fp);
        (FreeLibrary (ret base), freed);
        (VirtualAllocEx (proc_handle inj) (c_int (len raw_args)) MEM_FLAGS RWX_PERMISSIONS, a);
        (WriteProcessMemory (proc_handle inj) (ret a) raw_args (len raw_args), wr);
        (CreateRemoteThread (proc_handle inj)
           (c_long (base_addr + (ret fp - ret base))) (c_long (ret a)), th);
        (WaitForSingleObject (ret th) 0xFFFFFFFF, wt);
        (GetExitCodeThread (ret th), got);
        (VirtualFreeEx (proc_handle inj) (ret a) 0 FREE_MEM, fr)].
Proof.
  intros Hd Hl Hlnz Henc Hp Hpnz Hfl Hflnz Ha Hanz Hw Hwnz Ht Htnz Hwt Hwtnz Hg Hgnz Hf Hfnz r.
  subst r. unfold execute_exported, encode. py_unfold. cbn. rewrite Hd. cbn.
  match goal with
  | |- context [resolve_func_offset _ _ (inj, ?w')] => set (w1 := w')
  end.
  destruct (resolve_func_offset_ok inj w1 module_path func_name name s1 base s2 fp s3 freed
              Hl Hlnz Henc Hp Hpnz Hfl Hflnz) as [lg1 Hres].
  rewrite Hres. cbn.
  match goal with
  | |- context [run_remote_function _ _ (inj, ?w')] => set (w2 := w')
  end.
  destruct (run_remote_function_ok inj w2 (base_addr + (ret fp - ret base)) raw_args
              s4 a s5 wr s6 th s7 wt s8 got s9 fr
              Ha Hanz Hw Hwnz Ht Htnz Hwt Hwtnz Hg Hgnz Hf Hfnz) as [lg2 Hrun].
  rewrite Hrun. cbn. rewrite <- !app_assoc. cbn. repeat split; reflexivity.
Qed.

(** ** [read_memory_region] *)

(** X13. What [read_memory_region] returns has exactly the length asked
    for, whatever kernel32 stored in the buffer; a length below zero is
    never answered with data. *)
Theorem read_memory_region_returns_length inj w address length data :
  outcome_of (read_memory_region address length (inj, w)) = Return data ->
  0 <= length /\ len data = length.
Proof.
  unfold read_memory_region. py_unfold. cbn.
  destruct (length <? 0) eqn:Hneg; cbn; [discriminate|].
  apply Z.ltb_ge in Hneg.
  destruct (k32 (os w) (ReadProcessMemory (proc_handle inj) (c_long address) length))
    as [s ok]. cbn.
  destruct (falsy (ret ok)); cbn.
  - destruct (k32 s GetLastError) as [s' code]. cbn. discriminate.
  - intros [= <-]. split; [exact Hneg|].
    unfold len. rewrite length_take, length_app, length_replicate. lia.
Qed.

(** ** [attach_to_pid] when the process cannot be opened *)

(** X14. A failed attachment does not fall back on the process held
    before.  When the old handle was closed and [OpenProcess] returns
    zero, [attach_to_pid] raises with the injector holding the zero it was
    given, for the new process id: the old handle is closed and forgotten.
    A [cleanup] after that calls nothing and sets the handle to [None]. *)
Theorem attach_failure_forgets_old_handle inj w h pid s1 closed s2 opened s3 code :
  proc_handle inj = Some h -> h <> 0 ->
  k32 (os w) (CloseHandle (Some h)) = (s1, closed) -> ret closed <> 0 ->
  k32 s1 (OpenProcess ACCESS_MASK 0 pid) = (s2, opened) -> ret opened = 0 ->
  k32 s2 GetLastError = (s3, code) ->
  let r := attach_to_pid pid (inj, w) in
  self_of r = mkInjector (c_ulong pid) (Some 0)
  /\ os_of r = s3
  /\ cleanup (snd r) = (Return tt, (mkInjector (c_ulong pid) None, snd (snd r))).
Proof.
  intros Hh Hnz Hk Hr Ho Hz Hc r.
  assert (Ht : truthy (proc_handle inj) = true) by (apply truthy_Some; eauto).
  subst r. unfold attach_to_pid. py_unfold. cbn.
  match goal with |- context [cleanup (inj, ?w')] => set (w1 := w') end.
  assert (Hk' : k32 (os w1) (CloseHandle (proc_handle inj)) = (s1, closed))
    by (rewrite Hh; exact Hk).
  destruct (cleanup_closed inj w1 s1 closed Ht Hk' Hr) as [lg Hrun].
  rewrite Hrun. cbn. rewrite Ho. cbn. unfold falsy. rewrite Hz. cbn.
  rewrite Hc. cbn. repeat split; reflexivity.
Qed.

End CallPaths.

(** ** Handles and regions over the memory model *)

Set Warnings "-clear-no-such-hyp".

Section AttachFresh.
Context {OS : Type} `{Kernel32 OS}.
Implicit Types (inj : DLLInjector) (w : World OS).

Lemma attach_fresh_ok inj w pid s1 opened :
  truthy (proc_handle inj) = false ->
  k32 (os w) (OpenProcess ACCESS_MASK 0 pid) = (s1, opened) -> ret opened <> 0 ->
  exists lg,
    attach_to_pid pid (inj, w) =
      (Return tt,
       (mkInjector (c_ulong pid) (Some (ret opened)),
        mkWorld s1 (trace w ++ [(OpenProcess ACCESS_MASK 0 pid, opened)]) lg)).
Proof.
  intros Ht Ho Hnz. apply falsy_false in Hnz.
  unfold attach_to_pid. py_unfold. cbn.
  rewrite cleanup_not_held by exact Ht. cbn. rewrite Ho. cbn. rewrite Hnz. cbn.
  eexists. reflexivity.
Qed.
Lemma attach_replaces_handle_open inj w h pid s1 closed s2 opened :
  proc_handle inj = Some h -> h <> 0 ->
  k32 (os w) (CloseHandle (Some h)) = (s1, closed) -> ret closed <> 0 ->
  k32 s1 (OpenProcess ACCESS_MASK 0 pid) = (s2, opened) ->
  (ret opened =? 0) = false ->
  exists lg,
    attach_to_pid pid (inj, w) =
      (Return tt,
       (mkInjector (c_ulong pid) (Some (ret opened)),
        mkWorld s2
          (trace w ++ [(CloseHandle (Some h), closed);
                       (OpenProcess ACCESS_MASK 0 pid, opened)])
          lg)).
Proof.
  intros Hh Hnz Hk Hr Ho Hz.
  assert (Ht : truthy (proc_handle inj) = true) by (apply truthy_Some; eauto).
  unfold attach_to_pid. py_unfold. cbn.
  match goal with |- context [cleanup (inj, ?w')] => set (w1 := w') end.
  assert (Hk' : k32 (os w1) (CloseHandle (proc_handle inj)) = (s1, closed))
    by (rewrite Hh; exact Hk).
  destruct (cleanup_closed inj w1 s1 closed Ht Hk' Hr) as [lg Hrun].
  rewrite Hrun. cbn. rewrite Ho. cbn. unfold falsy. rewrite Hz. cbn.
  rewrite Hh, <- !app_assoc. cbn. eexists. reflexivity.
Qed.
End AttachFresh.

(** X15. Over the memory model, attaching to a running process and
    cleaning up leaves no handle behind.  From an injector without a live
    handle, [attach_to_pid] on a running process returns and holds the
    handle that was opened; the [cleanup] after it returns and holds
    none; and the set of open handles is the one before the two calls. *)
Theorem remote_attach_cleanup_balanced (inj : DLLInjector) (w : World Remote.t) (pid : Z) :
  truthy (proc_handle inj) = false ->
  bool_decide (pid ∈ Remote.running (os w)) = true ->
  0 < Remote.next_handle (os w) ->
  bool_decide (Remote.next_handle (os w) ∈ Remote.handles (os w)) = false ->
  let r1 := attach_to_pid pid (inj, w) in
  let r2 := cleanup (snd r1) in
  outcome_of r1 = Return tt
  /\ proc_handle (self_of r1) = Some (Remote.next_handle (os w))
  /\ outcome_of r2 = Return tt
  /\ proc_handle (self_of r2) = None
  /\ Remote.handles (os_of r2) = Remote.handles (os w).
Proof.
  intros Ht Hrun Hpos Hfresh r1 r2.
  set (s := os w) in *. set (nh := Remote.next_handle s) in *.
  set (s1 := Remote.mk (Remote.running s) ({[nh]} ∪ Remote.handles s) (nh + 4)
               (Remote.regions s) (Remote.memory s) (Remote.next_base s)
               (Remote.last_error s)).
  assert (Ho : k32 (os w) (OpenProcess ACCESS_MASK 0 pid) = (s1, reply nh)).
  { cbn. fold s nh. rewrite Hrun.
    replace (0 <? nh) with true by (symmetry; apply Z.ltb_lt; exact Hpos).
    reflexivity. }
  destruct (attach_fresh_ok inj w pid s1 (reply nh) Ht Ho ltac:(cbn; lia)) as [lg Ha].
  subst r2 r1. rewrite Ha. cbn.
  match goal with |- context [cleanup (?i, ?w')] => set (inj1 := i); set (w1 := w') end.
  assert (Ht1 : truthy (proc_handle inj1) = true).
  { cbn. apply negb_true_iff, Z.eqb_neq. lia. }
  set (s2 := Remote.mk (Remote.running s) (({[nh]} ∪ Remote.handles s) ∖ {[nh]}) (nh + 4)
               (Remote.regions s) (Remote.memory s) (Remote.next_base s)
               (Remote.last_error s)).
  assert (Hc : k32 (os w1) (CloseHandle (proc_handle inj1)) = (s2, reply 1)).
  { cbn. rewrite bool_decide_eq_true_2 by set_solver. reflexivity. }
  destruct (cleanup_closed inj1 w1 s2 (reply 1) Ht1 Hc ltac:(discriminate)) as [lg2 Hcl].
  rewrite Hcl. unfold outcome_of, self_of, os_of. cbn.
  repeat split; try reflexivity.
  apply bool_decide_eq_false in Hfresh. fold s nh in Hfresh. set_solver.
Qed.

(** X16. Over the memory model, attaching again replaces the handle.  An
    injector that holds an open handle and attaches to a running process
    ends up holding the new handle; the old one is no longer open, and
    the number of open handles is what it was. *)
Theorem remote_reattach_replaces (inj : DLLInjector) (w : World Remote.t) (h pid : Z) :
  proc_handle inj = Some h -> h <> 0 ->
  bool_decide (h ∈ Remote.handles (os w)) = true ->
  bool_decide (pid ∈ Remote.running (os w)) = true ->
  0 < Remote.next_handle (os w) ->
  bool_decide (Remote.next_handle (os w) ∈ Remote.handles (os w)) = false ->
  let r := attach_to_pid pid (inj, w) in
  outcome_of r = Return tt
  /\ proc_handle (self_of r) = Some (Remote.next_handle (os w))
  /\ (h ∉ Remote.handles (os_of r))
  /\ (Remote.next_handle (os w) ∈ Remote.handles (os_of r))
  /\ size (Remote.handles (os_of r)) = size (Remote.handles (os w)).
Proof.
  intros Hh Hnz Hheld Hrun Hpos Hfresh r.
  set (s := os w) in *. set (nh := Remote.next_handle s) in *.
  apply bool_decide_eq_true in Hheld. apply bool_decide_eq_false in Hfresh.
  assert (Hne : h <> nh) by (intros ->; contradiction).
  set (s1 := Remote.mk (Remote.running s) (Remote.handles s ∖ {[h]}) nh
               (Remote.regions s) (Remote.memory s) (Remote.next_base s)
               (Remote.last_error s)).
  set (s2 := Remote.mk (Remote.running s) ({[nh]} ∪ (Remote.handles s ∖ {[h]})) (nh + 4)
               (Remote.regions s) (Remote.memory s) (Remote.next_base s)
               (Remote.last_error s)).
  assert (Hc : k32 (os w) (CloseHandle (Some h)) = (s1, reply 1)).
  { cbn. fold s. rewrite bool_decide_eq_true_2 by exact Hheld. reflexivity. }
  assert (Ho : k32 s1 (OpenProcess ACCESS_MASK 0 pid) = (s2, reply nh)).
  { cbn. rewrite Hrun.
    replace (0 <? nh) with true by (symmetry; apply Z.ltb_lt; exact Hpos).
    reflexivity. }
  assert (Hopen : ret (reply nh) <> 0) by (cbn; lia).
  apply Z.eqb_neq in Hopen.
  pose proof (attach_replaces_handle_open inj w h pid s1 (reply 1) s2 (reply nh)
                Hh Hnz Hc ltac:(discriminate) Ho Hopen) as (lg & Hrun').
  subst r. rewrite Hrun'. unfold outcome_of, self_of, os_of. cbn.
  repeat split; try reflexivity.
  - set_solver.
  - set_solver.
  - rewrite size_union by set_solver. rewrite size_singleton.
    rewrite size_difference by set_solver. rewrite size_singleton.
    assert (size (Remote.handles s) <> 0%nat).
    { apply size_non_empty_iff. set_solver. }
    lia.
Qed.

Lemma remote_tidy_no_base (s : Remote.t) :
  remote_tidy s = true ->
  existsb (fun '(base, _) => base =? Remote.next_base s) (Remote.regions s) = false
  /\ filter (fun '(base, _) => base ≠ Remote.next_base s) (Remote.regions s)
     = Remote.regions s.
Proof.
  unfold remote_tidy. generalize (Remote.next_base s) as nb.
  induction (Remote.regions s) as [|[base size] rest IH]; intros nb; cbn [forallb existsb].
  - intros _. split; reflexivity.
  - intros Hall. apply andb_prop in Hall. destruct Hall as [Hhd Htl].
    apply andb_prop in Hhd. destruct Hhd as [Hsz Hend].
    apply Z.ltb_lt in Hsz. apply Z.leb_le in Hend.
    destruct (IH nb Htl) as [He Hf].
    split.
    + rewrite He. replace (base =? nb) with false by (symmetry; apply Z.eqb_neq; lia).
      reflexivity.
    + rewrite filter_cons_True by (cbn; lia). now rewrite Hf.
Qed.

(** X17. Over the memory model, what [allocate_remote_buffer] reserved is
    given back by [release_remote_buffer], once.  With a valid handle, a
    non-empty buffer that fits and regions in order, the allocation
    returns the next free base; releasing that address returns and leaves
    the regions as they were before the allocation; releasing it a second
    time fails: the call is left by an exception (the [KeyError] of the
    decorator, in place of the [MemoryAllocationError] of the body). *)
Theorem remote_allocate_release (inj : DLLInjector) (w : World Remote.t) (b : bytes) :
  Remote.valid (os w) (proc_handle inj) = true ->
  0 < len b ->
  0 < Remote.next_base (os w) ->
  Remote.next_base (os w) + len b <= 2 ^ 31 ->
  remote_tidy (os w) = true ->
  let addr := Remote.next_base (os w) in
  let r1 := allocate_remote_buffer b (len b) (inj, w) in
  let r2 := release_remote_buffer addr (len b) (snd r1) in
  let r3 := release_remote_buffer addr (len b) (snd r2) in
  outcome_of r1 = Return addr
  /\ outcome_of r2 = Return tt
  /\ Remote.regions (os_of r2) = Remote.regions (os w)
  /\ outcome_of r3 = Raise args_KeyError.
Proof.
  intros Hv Hpos Hbase Hfit Htidy addr r1 r2 r3.
  destruct (remote_tidy_no_base (os w) Htidy) as [Hnone Hsame].
  assert (Hlen : c_int (len b) = len b) by (apply c_int_small; lia).
  set (s := os w) in *.
  set (s1 := Remote.mk (Remote.running s) (Remote.handles s) (Remote.next_handle s)
               ((addr, len b) :: Remote.regions s) (Remote.memory s)
               (addr + len b) (Remote.last_error s)).
  set (s2 := Remote.mk (Remote.running s) (Remote.handles s) (Remote.next_handle s)
               ((addr, len b) :: Remote.regions s)
               (Remote.store (Remote.memory s) addr (take (Z.to_nat (len b)) b))
               (addr + len b) (Remote.last_error s)).
  set (s3 := Remote.mk (Remote.running s) (Remote.handles s) (Remote.next_handle s)
               (Remote.regions s)
               (Remote.store (Remote.memory s) addr (take (Z.to_nat (len b)) b))
               (addr + len b) (Remote.last_error s)).
  assert (Hk : k32 (os w)
                 (VirtualAllocEx (proc_handle inj) (c_int (len b)) MEM_FLAGS RWX_PERMISSIONS)
               = (s1, reply addr)).
  { assert (E1 : (0 <? len b) = true) by (apply Z.ltb_lt; lia).
    assert (E2 : (0 <? Remote.next_base s) = true) by (apply Z.ltb_lt; lia).
    assert (E3 : (Remote.next_base s + len b <=? 2 ^ 31) = true) by (apply Z.leb_le; lia).
    rewrite Hlen. cbn. fold s. rewrite Hv. cbn. rewrite E1, E2, E3. reflexivity. }
  assert (Hw : k32 s1 (WriteProcessMemory (proc_handle inj) (ret (reply addr)) b (len b))
               = (s2, reply 1)).
  { assert (E1 : (0 <=? len b) = true) by (apply Z.leb_le; lia).
    assert (Hv1 : Remote.valid s1 (proc_handle inj) = true) by exact Hv.
    cbn. rewrite Hv1. cbn. unfold Remote.inside. cbn.
    rewrite E1, !Z.leb_refl. reflexivity. }
  assert (Hf : forall w', os w' = s2 ->
             k32 (os w') (VirtualFreeEx (proc_handle inj) addr 0 FREE_MEM) = (s3, reply 1)).
  { intros w' ->.
    assert (Hv2 : Remote.valid s2 (proc_handle inj) = true) by exact Hv.
    cbn -[filter]. rewrite Hv2. cbn -[filter]. rewrite Z.eqb_refl. cbn -[filter].
    rewrite filter_cons_False by (cbn; intros Hne; apply Hne; reflexivity).
    fold s in Hsame. unfold addr. rewrite Hsame. reflexivity. }
  assert (Hf2 : forall w', os w' = s3 ->
             k32 (os w') (VirtualFreeEx (proc_handle inj) addr 0 FREE_MEM)
             = Remote.fail s3 Remote.ERROR_INVALID_ADDRESS).
  { intros w' ->.
    assert (Hv3 : Remote.valid s3 (proc_handle inj) = true) by exact Hv.
    cbn. rewrite Hv3. cbn. fold s in Hnone. unfold addr. rewrite Hnone. reflexivity. }
  destruct (allocate_remote_buffer_ok inj w b (len b) s1 _ s2 _ Hk
              ltac:(cbn; lia) Hw ltac:(discriminate)) as [lg1 Hrun1].
  subst r3 r2 r1. rewrite Hrun1. cbn.
  match goal with
  | |- context [release_remote_buffer _ _ (inj, ?w')] => set (w2 := w')
  end.
  destruct (release_remote_buffer_ok inj w2 addr (len b) s3 (reply 1)
              (Hf w2 eq_refl) ltac:(discriminate)) as [lg2 Hrun2].
  rewrite Hrun2. cbn.
  match goal with
  | |- context [release_remote_buffer _ _ (inj, ?w')] => set (w3 := w')
  end.
  destruct (release_remote_buffer_failed inj w3 addr (len b) _ _ _ (reply 487)
              (Hf2 w3 eq_refl) eq_refl eq_refl) as [lg3 Hrun3].
  rewrite Hrun3. unfold outcome_of, os_of. cbn.
  repeat split; reflexivity.
Qed.

(** ** The decorator and the launcher *)

(** What the decorator does to a body: a returned value passes, an
    exception is replaced, and the state, the log included, is as the body
    left it. *)
Lemma log_exceptions_run {OS : Type} {A : Type}
    (func_name : string) (body : Py OS A) (st : State OS) :
  log_exceptions func_name body st =
    match body st with
    | (Return a, st1) => (Return a, st1)
    | (Raise _, st1) => (Raise args_KeyError, st1)
    end.
Proof.
  unfold log_exceptions. py_unfold.
  destruct (body st) as [[a|e] [inj w]]; reflexivity.
Qed.

Lemma log_exceptions_raises_only {OS : Type} {A : Type} (func_name : string) (body : Py OS A) :
  raises_only args_KeyError (log_exceptions func_name body).
Proof.
  intros st e. rewrite log_exceptions_run. unfold outcome_of.
  destruct (body st) as [[a|e'] st1]; cbn; congruence.
Qed.

(** X18. No exception of its own making leaves the class.  Whatever a
    method of [DLLInjector] raises in its body ([DLLInjectionError],
    [ProcessAccessError], [MemoryAllocationError], [FileNotFoundError], an
    error of the codec or of ctypes), the only exception a caller can get
    from any of the thirteen methods is the [KeyError] with which the
    logging call of [log_exceptions] fails. *)
Theorem methods_raise_only_KeyError {OS : Type} `{Kernel32 OS} `{Subprocess OS} :
  (forall exe_path, raises_only args_KeyError (launch_target exe_path))
  /\ (forall pid, raises_only args_KeyError (attach_to_pid pid))
  /\ raises_only args_KeyError cleanup
  /\ (forall data length, raises_only args_KeyError (allocate_remote_buffer data length))
  /\ (forall addr length, raises_only args_KeyError (release_remote_buffer addr length))
  /\ (forall dll func, raises_only args_KeyError (get_func_address dll func))
  /\ (forall addr arg_data, raises_only args_KeyError (run_remote_function addr arg_data))
  /\ (forall address length, raises_only args_KeyError (read_memory_region address length))
  /\ (forall address payload, raises_only args_KeyError (write_to_memory address payload))
  /\ (forall dll_bytes, raises_only args_KeyError (load_library_into_target dll_bytes))
  /\ (forall dll_path, raises_only args_KeyError (inject_shared_library dll_path))
  /\ (forall dll_path base_addr func_name raw_args,
        raises_only args_KeyError (execute_exported dll_path base_addr func_name raw_args))
  /\ (forall module_path func_name,
        raises_only args_KeyError (resolve_func_offset module_path func_name)).
Proof.
  repeat match goal with |- _ /\ _ => split end; intros;
    apply log_exceptions_raises_only.
Qed.

(** X19. [launch_target] returns the pid of the process [Popen] started.
    When [Popen] raises, be it [OSError] or anything else, the caller
    gets neither that exception nor the [DLLInjectionError] into which
    the body turns an [OSError], but the [KeyError] of the decorator.  No
    kernel32 call is made and the injector is not touched. *)
Theorem launch_target_outcomes {OS : Type} `{Kernel32 OS} `{Subprocess OS}
    (inj : DLLInjector) (w : World OS) (exe_path : str) :
  let r := launch_target exe_path (inj, w) in
  outcome_of r =
    match snd (popen (os w) exe_path) with
    | Started pid => Return pid
    | LaunchOSError _ | LaunchError _ => Raise args_KeyError
    end
  /\ self_of r = inj
  /\ os_of r = fst (popen (os w) exe_path)
  /\ trace_of r = trace w.
Proof.
  unfold launch_target, subprocess_Popen. py_unfold. cbn.
  destruct (popen (os w) exe_path) as [s [pid|reason|e]]; cbn;
    repeat split; reflexivity.
Qed.

(** ** The callers: [find_dll_path] and the attempt of [monitor_and_inject] *)

Section CallerFacts.
Context {OS : Type} `{Kernel32 OS}.
Variable os_path_join : str -> list str -> str.
Variable project_root : str.
Variable module_name : string.
Implicit Types (inj : DLLInjector) (w : World OS).

Lemma first_existing_find (paths : list str) (otherwise : Py OS str) inj w :
  first_existing paths otherwise (inj, w) =
    match List.find (path_exists (os w)) paths with
    | Some path =>
        (Return path,
         (inj,
          mkWorld (os w) (trace w)
            (log w ++
             [mkLog logger INFO (Fmt "Found DLL at: {}" [Str path]);
              mkLog security_logger INFO
                (Fmt "Security testing DLL located: {}" [Str path])])))
    | None => otherwise (inj, w)
    end.
Proof.
  induction paths as [|path rest IH]; cbn.
  - reflexivity.
  - py_unfold. cbn. destruct (path_exists (os w) path); cbn.
    + rewrite <- app_assoc. reflexivity.
    + exact IH.
Qed.

(** X20. [find_dll_path] returns the first of its five locations, in the
    order it lists them, that exists: the release build of the hook
    library before the debug build, those before the legacy locations.
    When none exists the body raises [FileNotFoundError], and the caller
    gets the [KeyError] of the decorator in its place.  It makes no
    kernel32 call and changes neither the injector nor the operating
    system. *)
Theorem find_dll_path_first_existing inj w :
  let paths := dll_paths os_path_join project_root in
  let r := find_dll_path os_path_join project_root module_name (inj, w) in
  match List.find (path_exists (os w)) paths with
  | Some path => outcome_of r = Return path
  | None => outcome_of r = Raise args_KeyError
  end
  /\ self_of r = inj
  /\ os_of r = os w
  /\ trace_of r = trace w.
Proof.
  cbv zeta. unfold find_dll_path, log_exceptions_of. py_unfold. cbn -[dll_paths].
  rewrite first_existing_find. cbn -[dll_paths].
  destruct (List.find (path_exists (os w)) (dll_paths os_path_join project_root));
    cbn -[dll_paths]; repeat split; reflexivity.
Qed.


(** X21. The attempt of [monitor_and_inject] on a matching process never
    raises: whatever kernel32 answers, it returns [True] or [False], the
    exception of a failed cleanup included.  When it returns [True] the
    injector holds no handle any more. *)
Theorem injection_attempt_never_raises inj w pid dll_path :
  let r := injection_attempt pid dll_path (inj, w) in
  exists b,
    outcome_of r = Return b
    /\ (b = true -> proc_handle (self_of r) = None).
Proof.
  cbv zeta. unfold injection_attempt. py_unfold.
  destruct (attach_to_pid pid (inj, w)) as [[[]|e1] [inj1 w1]]; cbn.
  - destruct (inject_shared_library dll_path (inj1, w1)) as [[base|e2] [inj2 w2]]; cbn.
    + match goal with |- context [cleanup (inj2, ?w')] => set (w3 := w') end.
      destruct (cleanup_cases inj2 w3)
        as [[_ Hc] | [(h & w4 & _ & _ & _ & Hc) | (h & e & w4 & _ & _ & _ & _ & Hc)]];
        rewrite Hc; cbn.
      * exists true. split; reflexivity.
      * exists true. split; reflexivity.
      * match goal with |- context [cleanup (inj2, ?w')] => set (w5 := w') end.
        destruct (cleanup (inj2, w5)) as [[[]|e3] [inj6 w6]]; cbn;
          exists false; split; [reflexivity | discriminate | reflexivity | discriminate].
    + match goal with |- context [cleanup (inj2, ?w')] => set (w5 := w') end.
      destruct (cleanup (inj2, w5)) as [[[]|e3] [inj6 w6]]; cbn;
        exists false; split; [reflexivity | discriminate | reflexivity | discriminate].
  - match goal with |- context [cleanup (inj1, ?w')] => set (w5 := w') end.
    destruct (cleanup (inj1, w5)) as [[[]|e3] [inj6 w6]]; cbn;
      exists false; split; [reflexivity | discriminate | reflexivity | discriminate].
Qed.

(** X22. A whole attempt that goes through, call by call.  From an injector
    without a live handle, when the process opens, the file exists under
    an ASCII path, every call of the injection succeeds and the handle
    closes, the attempt returns [True] after ten calls: [OpenProcess]
    first, then the eight calls of the injection, all made on the handle
    just opened, and [CloseHandle] on that handle last.  The injector
    ends up without a handle. *)
Theorem injection_attempt_goes_through
    inj w pid dll_path dll_bytes
    s0 opened s1 mb s2 fp s3 a s4 wr s5 th s6 wt s7 got s8 fr s9 closed :
  truthy (proc_handle inj) = false ->
  k32 (os w) (OpenProcess ACCESS_MASK 0 pid) = (s0, opened) -> ret opened <> 0 ->
  path_exists s0 dll_path = true ->
  encode_ascii dll_path = Some dll_bytes ->
  k32 s0 (GetModuleHandleA kernel32_dll) = (s1, mb) -> ret mb <> 0 ->
  k32 s1 (GetProcAddress (ret mb) LoadLibraryA_name) = (s2, fp) -> ret fp <> 0 ->
  k32 s2 (VirtualAllocEx (Some (ret opened)) (c_int (len dll_path)) MEM_FLAGS RWX_PERMISSIONS)
    = (s3, a) -> ret a <> 0 ->
  k32 s3 (WriteProcessMemory (Some (ret opened)) (ret a) dll_bytes (len dll_path)) = (s4, wr) ->
  ret wr <> 0 ->
  k32 s4 (CreateRemoteThread (Some (ret opened)) (c_long (ret fp)) (c_long (ret a)))
    = (s5, th) -> ret th <> 0 ->
  k32 s5 (WaitForSingleObject (ret th) 0xFFFFFFFF) = (s6, wt) -> ret wt <> 0xFFFFFFFF ->
  k32 s6 (GetExitCodeThread (ret th)) = (s7, got) -> ret got <> 0 ->
  k32 s7 (VirtualFreeEx (Some (ret opened)) (ret a) 0 FREE_MEM) = (s8, fr) -> ret fr <> 0 ->
  c_long (out_long got) <> 0 ->
  k32 s8 (CloseHandle (Some (ret opened))) = (s9, closed) -> ret closed <> 0 ->
  let r := injection_attempt pid dll_path (inj, w) in
  outcome_of r = Return true
  /\ self_of r = mkInjector (c_ulong pid) None
  /\ os_of r = s9
  /\ trace_of r =
       trace w ++
       [(OpenProcess ACCESS_MASK 0 pid, opened);
        (GetModuleHandleA kernel32_dll, mb);
        (GetProcAddress (ret mb) LoadLibraryA_name, fp);
        (VirtualAllocEx (Some (ret opened)) (c_int (len dll_path)) MEM_FLAGS
           RWX_PERMISSIONS, a);
        (WriteProcessMemory (Some (ret opened)) (ret a) dll_bytes (len dll_path), wr);
        (CreateRemoteThread (Some (ret opened)) (c_long (ret fp)) (c_long (ret a)), th);
        (WaitForSingleObject (ret th) 0xFFFFFFFF, wt);
        (GetExitCodeThread (ret th), got);
        (VirtualFreeEx (Some (ret opened)) (ret a) 0 FREE_MEM, fr);
        (CloseHandle (Some (ret opened)), closed)].
Proof.
  intros Hfresh Ho Honz Hex Henc Hm Hmnz Hp Hpnz Ha Hanz Hw Hwnz Ht Htnz Hwt Hwtnz
    Hg Hgnz Hf Hfnz Hbase Hc Hcnz r.
  subst r. unfold injection_attempt. py_unfold.
  destruct (attach_fresh_ok inj w pid s0 opened Hfresh Ho Honz) as [lg0 Hatt].
  rewrite Hatt. cbn.
  match goal with
  | |- context [inject_shared_library _ (?i, ?w')] => set (inj1 := i); set (w1 := w')
  end.
  destruct (inject_shared_library_ok inj1 w1 dll_path dll_bytes
              s1 mb s2 fp s3 a s4 wr s5 th s6 wt s7 got s8 fr
              Hex Henc Hm Hmnz Hp Hpnz Ha Hanz Hw Hwnz Ht Htnz Hwt Hwtnz Hg Hgnz Hf Hfnz Hbase)
    as [lg1 Hinj].
  rewrite Hinj. cbn.
  match goal with |- context [cleanup (inj1, ?w')] => set (w2 := w') end.
  assert (Ht1 : truthy (proc_handle inj1) = true).
  { cbn. apply negb_true_iff, Z.eqb_neq. exact Honz. }
  destruct (cleanup_closed inj1 w2 s9 closed Ht1 Hc Hcnz) as [lg2 Hcl].
  rewrite Hcl. cbn. rewrite <- !app_assoc. cbn. repeat split; reflexivity.
Qed.


End CallerFacts.

(** ** Runs that meet the hypotheses above *)

Ltac nz := first [discriminate | vm_compute; discriminate].

Lemma run_remote_function_in_order_witness :
  let r := run_remote_function 0x77001000 payload (attached, world_run_ok) in
  outcome_of r = Return 42
  /\ trace_of r =
       [(VirtualAllocEx (Some 1234) 5 MEM_FLAGS RWX_PERMISSIONS, reply 0x10000000);
        (WriteProcessMemory (Some 1234) 0x10000000 payload 5, reply 1);
        (CreateRemoteThread (Some 1234) 0x77001000 0x10000000, reply 5678);
        (WaitForSingleObject 5678 0xFFFFFFFF, reply 0);
        (GetExitCodeThread 5678, mkReply 1 42 []);
        (VirtualFreeEx (Some 1234) 0x10000000 0 FREE_MEM, reply 1)].
Proof.
  pose proof (run_remote_function_in_order attached world_run_ok 0x77001000 payload
                _ (reply 0x10000000) _ (reply 1) _ (reply 5678) _ (reply 0)
                _ (mkReply 1 42 []) _ (reply 1)
                eq_refl ltac:(nz) eq_refl ltac:(nz) eq_refl ltac:(nz)
                eq_refl ltac:(nz) eq_refl ltac:(nz) eq_refl ltac:(nz))
    as (Ho & _ & _ & Ht).
  split; [exact Ho | exact Ht].
Defined.

Lemma run_remote_function_release_failure_masks_witness :
  let r := run_remote_function 0x77001000 payload (attached, world_run_release_fails) in
  In (GetExitCodeThread 5678, mkReply 1 42 []) (trace_of r)
  /\ exists code,
       outcome_of r = Raise args_KeyError
       /\ In (mkLog logger ERROR
                (Fmt "Failed to release memory at 0x{:08x} (Error: {})"
                   [Int 0x10000000; Int (ret code)]))
             (log_of r)
       /\ In (GetLastError, code) (trace_of r).
Proof.
  cbv zeta.
  set (r := run_remote_function 0x77001000 payload (attached, world_run_release_fails)).
  assert (Htr : trace_of r = trace world_run_release_fails ++ trace_of r) by reflexivity.
  assert (Hex : In (GetExitCodeThread 5678, mkReply 1 42 []) (trace_of r))
    by (vm_compute; tauto).
  assert (Hin : In (VirtualFreeEx (Some 1234) 0x10000000 0 FREE_MEM, reply 0) (trace_of r))
    by (vm_compute; tauto).
  split; [exact Hex|].
  exact (run_remote_function_release_failure_masks attached world_run_release_fails
           0x77001000 payload (trace_of r) (Some 1234) 0x10000000 0 FREE_MEM (reply 0)
           Htr Hin eq_refl).
Defined.

Lemma run_remote_function_releases_once_witness :
  let r := run_remote_function 0x77001000 payload (attached, world_run_no_exit_code) in
  exists fr,
    List.filter (fun ev => is_VirtualFreeEx (fst ev)) (trace_of r) =
      [(VirtualFreeEx (Some 1234) 0x10000000 0 FREE_MEM, fr)].
Proof.
  cbv zeta.
  set (r := run_remote_function 0x77001000 payload (attached, world_run_no_exit_code)).
  assert (Htr : trace_of r = trace world_run_no_exit_code ++ trace_of r) by reflexivity.
  assert (Hin : In (WriteProcessMemory (Some 1234) 0x10000000 payload 5, reply 1) (trace_of r))
    by (vm_compute; tauto).
  exact (run_remote_function_releases_once attached world_run_no_exit_code
           0x77001000 payload (trace_of r) (Some 1234) 0x10000000 payload 5 (reply 1)
           Htr Hin ltac:(nz)).
Defined.

Lemma load_library_needs_the_loader_witness :
  let r := load_library_into_target payload (attached, world_no_loader) in
  outcome_of r = Raise args_KeyError
  /\ exists evs,
       trace_of r = (GetModuleHandleA kernel32_dll, reply 0x77000000) :: evs
       /\ Forall (fun ev => is_remote (fst ev) = false) evs.
Proof.
  exact (load_library_needs_the_loader attached world_no_loader payload
           _ (reply 0x77000000) _ (reply 0) eq_refl eq_refl (or_intror eq_refl)).
Defined.

Lemma load_library_zero_is_an_error_witness :
  let r := load_library_into_target payload (attached, world_inject_zero) in
  outcome_of r = Raise args_KeyError
  /\ exists before,
       trace_of r = before ++ [(VirtualFreeEx (Some 1234) 0x10000000 0 FREE_MEM, reply 1)].
Proof.
  exact (load_library_zero_is_an_error attached world_inject_zero payload
           _ (reply 0x77000000) _ (reply 0x77001000) _ (reply 0x10000000) _ (reply 1)
           _ (reply 5678) _ (reply 0) _ (mkReply 1 0 []) _ (reply 1)
           eq_refl ltac:(nz) eq_refl ltac:(nz) eq_refl ltac:(nz) eq_refl ltac:(nz)
           eq_refl ltac:(nz) eq_refl ltac:(nz) eq_refl ltac:(nz) eq_refl ltac:(nz)).
Defined.

Lemma inject_shared_library_goes_through_witness :
  let r := inject_shared_library a_dll (attached, world_inject_ok) in
  outcome_of r = Return 0x6a000000
  /\ self_of r = attached
  /\ map Byte.to_N payload = a_dll
  /\ trace_of r =
       [(GetModuleHandleA kernel32_dll, reply 0x77000000);
        (GetProcAddress 0x77000000 LoadLibraryA_name, reply 0x77001000);
        (VirtualAllocEx (Some 1234) 5 MEM_FLAGS RWX_PERMISSIONS, reply 0x10000000);
        (WriteProcessMemory (Some 1234) 0x10000000 payload 5, reply 1);
        (CreateRemoteThread (Some 1234) 0x77001000 0x10000000, reply 5678);
        (WaitForSingleObject 5678 0xFFFFFFFF, reply 0);
        (GetExitCodeThread 5678, mkReply 1 0x6a000000 []);
        (VirtualFreeEx (Some 1234) 0x10000000 0 FREE_MEM, reply 1)].
Proof.
  exact (inject_shared_library_goes_through attached world_inject_ok a_dll payload
           _ (reply 0x77000000) _ (reply 0x77001000) _ (reply 0x10000000) _ (reply 1)
           _ (reply 5678) _ (reply 0) _ (mkReply 1 0x6a000000 []) _ (reply 1)
           eq_refl eq_refl
           eq_refl ltac:(nz) eq_refl ltac:(nz) eq_refl ltac:(nz) eq_refl ltac:(nz)
           eq_refl ltac:(nz) eq_refl ltac:(nz) eq_refl ltac:(nz) eq_refl ltac:(nz)
           ltac:(nz)).
Defined.

Lemma execute_exported_symbol_missing_witness :
  let r := execute_exported a_dll 0x6a000000 (str_of "Hook") []
             (attached, world_resolve_no_symbol) in
  outcome_of r = Raise args_KeyError
  /\ In (mkLog logger ERROR
           (Fmt "Function {} not found in {} (Error: {})"
              [Str (str_of "Hook"); Str a_dll; Int 127]))
        (log_of r)
  /\ exists evs,
       trace_of r = evs
       /\ Forall (fun ev => is_remote (fst ev) = false) evs
       /\ In (FreeLibrary 0x50000000, reply 0) evs.
Proof.
  exact (execute_exported_symbol_missing attached world_resolve_no_symbol
           a_dll 0x6a000000 (str_of "Hook") [] payload [x48; x6f; x6f; x6b]
           _ (reply 0x50000000) _ (reply 0) _ (reply 127)
           eq_refl eq_refl ltac:(nz) eq_refl eq_refl eq_refl eq_refl).
Defined.

Lemma execute_exported_runs_at_offset_witness :
  let r := execute_exported a_dll 0x6a000000 (str_of "Hook") [] (attached, world_call_ok) in
  outcome_of r = Return 42
  /\ In (CreateRemoteThread (Some 1234) 0x6a001230 0x10000000, reply 5678) (trace_of r).
Proof.
  pose proof (execute_exported_runs_at_offset attached world_call_ok
                a_dll 0x6a000000 (str_of "Hook") [] payload [x48; x6f; x6f; x6b]
                _ (reply 0x50000000) _ (reply 0x50001230) _ (reply 1)
                _ (reply 0x10000000) _ (reply 1) _ (reply 5678) _ (reply 0)
                _ (mkReply 1 42 []) _ (reply 1)
                eq_refl eq_refl ltac:(nz) eq_refl eq_refl ltac:(nz) eq_refl ltac:(nz)
                eq_refl ltac:(nz) eq_refl ltac:(nz) eq_refl ltac:(nz)
                eq_refl ltac:(nz) eq_refl ltac:(nz) eq_refl ltac:(nz))
    as (Ho & _ & Ht).
  cbv zeta in *. split; [exact Ho|]. rewrite Ht. vm_compute. tauto.
Defined.

Lemma read_memory_region_returns_length_witness :
  outcome_of (read_memory_region 0x10000000 5 roundtrip_written) = Return roundtrip_payload
  /\ 0 <= 5 /\ len roundtrip_payload = 5.
Proof.
  assert (Hrun : outcome_of (read_memory_region 0x10000000 5 roundtrip_written)
                 = Return roundtrip_payload) by (vm_compute; reflexivity).
  split; [exact Hrun|].
  exact (read_memory_region_returns_length (fst roundtrip_written) (snd roundtrip_written)
           0x10000000 5 roundtrip_payload Hrun).
Defined.

Lemma attach_failure_forgets_old_handle_witness :
  let r := attach_to_pid 4321 (attached, world_open_denied) in
  self_of r = mkInjector 4321 (Some 0)
  /\ os_of r = Scripted.mk [] []
  /\ cleanup (snd r) = (Return tt, (mkInjector 4321 None, snd (snd r))).
Proof.
  exact (attach_failure_forgets_old_handle attached world_open_denied 1234 4321
           _ (reply 1) _ (reply 0) _ (reply 5)
           eq_refl ltac:(nz) eq_refl ltac:(nz) eq_refl eq_refl eq_refl).
Defined.

Lemma remote_attach_cleanup_balanced_witness :
  let r1 := attach_to_pid 1234 (init, remote_fresh) in
  let r2 := cleanup (snd r1) in
  outcome_of r1 = Return tt
  /\ proc_handle (self_of r1) = Some 4
  /\ outcome_of r2 = Return tt
  /\ proc_handle (self_of r2) = None
  /\ Remote.handles (os_of r2) = ∅.
Proof.
  exact (remote_attach_cleanup_balanced init remote_fresh 1234
           eq_refl eq_refl ltac:(reflexivity) eq_refl).
Defined.

Lemma remote_reattach_replaces_witness :
  let r := attach_to_pid 1234 remote_state in
  outcome_of r = Return tt
  /\ proc_handle (self_of r) = Some 8
  /\ (4 ∉ Remote.handles (os_of r))
  /\ (8 ∈ Remote.handles (os_of r))
  /\ size (Remote.handles (os_of r)) = 1%nat.
Proof.
  exact (remote_reattach_replaces (fst remote_state) (snd remote_state) 4 1234
           eq_refl ltac:(nz) eq_refl eq_refl ltac:(reflexivity) eq_refl).
Defined.

Lemma remote_allocate_release_witness :
  let r1 := allocate_remote_buffer roundtrip_payload 5 remote_state in
  let r2 := release_remote_buffer 0x10000000 5 (snd r1) in
  let r3 := release_remote_buffer 0x10000000 5 (snd r2) in
  outcome_of r1 = Return 0x10000000
  /\ outcome_of r2 = Return tt
  /\ Remote.regions (os_of r2) = []
  /\ outcome_of r3 = Raise args_KeyError.
Proof.
  exact (remote_allocate_release (fst remote_state) (snd remote_state) roundtrip_payload
           eq_refl ltac:(reflexivity) ltac:(reflexivity) ltac:(vm_compute; discriminate)
           eq_refl).
Defined.

Lemma injection_attempt_goes_through_witness :
  let r := injection_attempt 1234 a_dll (init, world_attempt_ok) in
  outcome_of r = Return true
  /\ self_of r = mkInjector 1234 None
  /\ os_of r = Scripted.mk [] [a_dll]
  /\ trace_of r =
       [(OpenProcess ACCESS_MASK 0 1234, reply 1234);
        (GetModuleHandleA kernel32_dll, reply 0x77000000);
        (GetProcAddress 0x77000000 LoadLibraryA_name, reply 0x77001000);
        (VirtualAllocEx (Some 1234) 5 MEM_FLAGS RWX_PERMISSIONS, reply 0x10000000);
        (WriteProcessMemory (Some 1234) 0x10000000 payload 5, reply 1);
        (CreateRemoteThread (Some 1234) 0x77001000 0x10000000, reply 5678);
        (WaitForSingleObject 5678 0xFFFFFFFF, reply 0);
        (GetExitCodeThread 5678, mkReply 1 0x6a000000 []);
        (VirtualFreeEx (Some 1234) 0x10000000 0 FREE_MEM, reply 1);
        (CloseHandle (Some 1234), reply 1)].
Proof.
  exact (injection_attempt_goes_through init world_attempt_ok 1234 a_dll payload
           _ (reply 1234)
           _ (reply 0x77000000) _ (reply 0x77001000) _ (reply 0x10000000) _ (reply 1)
           _ (reply 5678) _ (reply 0) _ (mkReply 1 0x6a000000 []) _ (reply 1)
           _ (reply 1)
           eq_refl eq_refl ltac:(nz) eq_refl eq_refl
           eq_refl ltac:(nz) eq_refl ltac:(nz) eq_refl ltac:(nz) eq_refl ltac:(nz)
           eq_refl ltac:(nz) eq_refl ltac:(nz) eq_refl ltac:(nz) eq_refl ltac:(nz)
           ltac:(nz) eq_refl ltac:(nz)).
Defined.

